(** * kilo.c: raw-mode terminal session and the byte echo loop

    A shallow embedding of [src/kilo.c] (the terminal bootstrap of a small
    text editor) and the properties of its specification.

    The program reads the attributes of the terminal, registers their
    restoration with [atexit], switches the terminal to raw mode and then
    echoes the numeric value of every byte it reads until it sees [q].

    The C code talks to the operating system and to libc.  Neither is part
    of the repository, so both appear here as explicit data:
    - the constants of [<termios.h>] and [<errno.h>], the signedness of
      [char] and [strerror] are the fields of a [Platform];
    - the behaviour of the terminal is a [World]: the attributes found at
      start-up, the outcome of [tcgetattr], the outcome of each successive
      [tcsetattr], and the results of the successive [read] calls. *)

From Stdlib Require Import ZArith String Ascii DecimalString Lia.
From stdpp Require Import base list.

Local Open Scope string_scope.
Local Open Scope Z_scope.

(** ** Platform: what the system headers fix *)

Class Platform := {
  (** width in bits of [tcflag_t] *)
  tcflag_bits : Z;
  (** size of the [c_cc] array and the two indexes the program writes *)
  NCCS : nat;
  VMIN : nat;
  VTIME : nat;
  (** input flags *)
  BRKINT : Z;
  ICRNL : Z;
  INPCK : Z;
  ISTRIP : Z;
  IXON : Z;
  (** output flag *)
  OPOST : Z;
  (** control mask *)
  CS8 : Z;
  (** local flags *)
  ECHO : Z;
  ICANON : Z;
  IEXTEN : Z;
  ISIG : Z;
  (** [<errno.h>] *)
  EAGAIN : Z;
  (** whether plain [char] is a signed type *)
  char_signed : bool;
  (** the text [perror] prints for an error number *)
  strerror : Z -> string
}.

(** ** Data *)

(** [struct termios].  POSIX requires the four flag words and [c_cc]; the
    members an implementation adds ([c_line], [c_ispeed], [c_ospeed] on
    Linux) are kept together in [c_impl]: the program never names them but
    copies them with the structure. *)
Record termios := {
  c_iflag : Z;
  c_oflag : Z;
  c_cflag : Z;
  c_lflag : Z;
  c_cc : list Z;
  c_impl : list Z
}.

(** The outcome of a system call: success, or failure with the value left
    in [errno]. *)
Inductive os_result :=
| OK
| Fail (e : Z).

(** What one [read(STDIN_FILENO, &c, 1)] delivers: a byte (return value 1),
    nothing (return value 0: the [VTIME] timeout elapsed, or end of input),
    or a failure (return value -1 and [errno] set). *)
Inductive read_result :=
| RData (b : ascii)
| RZero
| RFail (e : Z).

(** The functions that can be registered with [atexit]; the program only
    ever registers [disableRawMode]. *)
Inductive handler :=
| H_disableRawMode.

Record World := {
  (** attributes of the terminal when the process starts *)
  dev0 : termios;
  (** outcome of the call of [tcgetattr] *)
  tcget : os_result;
  (** outcome of the [n]-th call of [tcsetattr], counted from 0 *)
  tcset : nat -> os_result;
  (** results of the successive calls of [read] observed so far *)
  stdin : list read_result
}.

(** The state the program runs in: the terminal, the global variable
    [orig_termios], the [atexit] registrations (most recent first),
    [errno], the two output streams, and the number of [tcsetattr] calls
    made so far. [stderr] holds one element per line written. *)
Record state := {
  dev : termios;
  orig_termios : termios;
  atexit_handlers : list handler;
  errno : Z;
  stdout : string;
  stderr : list string;
  tcset_calls : nat
}.

(** The content of the global before anything is stored in it.  It is
    never read: [disableRawMode], the only reader, is registered after
    [tcgetattr] has overwritten it. *)
Definition termios_zero : termios :=
  {| c_iflag := 0; c_oflag := 0; c_cflag := 0; c_lflag := 0;
     c_cc := []; c_impl := [] |}.

Definition init (w : World) : state :=
  {| dev := dev0 w; orig_termios := termios_zero; atexit_handlers := [];
     errno := 0; stdout := ""; stderr := []; tcset_calls := 0 |}.

Definition set_dev (t : termios) (s : state) : state :=
  {| dev := t; orig_termios := orig_termios s;
     atexit_handlers := atexit_handlers s; errno := errno s;
     stdout := stdout s; stderr := stderr s;
     tcset_calls := tcset_calls s |}.

Definition set_orig_termios (t : termios) (s : state) : state :=
  {| dev := dev s; orig_termios := t;
     atexit_handlers := atexit_handlers s; errno := errno s;
     stdout := stdout s; stderr := stderr s;
     tcset_calls := tcset_calls s |}.

Definition set_atexit_handlers (hs : list handler) (s : state) : state :=
  {| dev := dev s; orig_termios := orig_termios s;
     atexit_handlers := hs; errno := errno s;
     stdout := stdout s; stderr := stderr s;
     tcset_calls := tcset_calls s |}.

Definition set_errno (e : Z) (s : state) : state :=
  {| dev := dev s; orig_termios := orig_termios s;
     atexit_handlers := atexit_handlers s; errno := e;
     stdout := stdout s; stderr := stderr s;
     tcset_calls := tcset_calls s |}.

Definition set_stdout (o : string) (s : state) : state :=
  {| dev := dev s; orig_termios := orig_termios s;
     atexit_handlers := atexit_handlers s; errno := errno s;
     stdout := o; stderr := stderr s;
     tcset_calls := tcset_calls s |}.

Definition set_stderr (l : list string) (s : state) : state :=
  {| dev := dev s; orig_termios := orig_termios s;
     atexit_handlers := atexit_handlers s; errno := errno s;
     stdout := stdout s; stderr := l;
     tcset_calls := tcset_calls s |}.

Definition set_tcset_calls (n : nat) (s : state) : state :=
  {| dev := dev s; orig_termios := orig_termios s;
     atexit_handlers := atexit_handlers s; errno := errno s;
     stdout := stdout s; stderr := stderr s;
     tcset_calls := n |}.

(** The parts of the state that only the session functions touch. *)
Definition same_session (s s' : state) : Prop :=
  dev s' = dev s /\ orig_termios s' = orig_termios s /\
  atexit_handlers s' = atexit_handlers s /\ tcset_calls s' = tcset_calls s.

(** ** The monad of the program

    A computation transforms the state and either returns a value, calls
    [exit], or is still waiting in [read] when the observed input ends. *)
Inductive res (A : Type) :=
| Ret (a : A)
| Exit (status : Z)
| Pending.
Arguments Ret {A} a.
Arguments Exit {A} status.
Arguments Pending {A}.

Definition M (A : Type) : Type := state -> res A * state.

Definition ret {A} (a : A) : M A := fun s => (Ret a, s).

Definition bind {A B} (m : M A) (k : A -> M B) : M B :=
  fun s =>
    match m s with
    | (Ret a, s') => k a s'
    | (Exit n, s') => (Exit n, s')
    | (Pending, s') => (Pending, s')
    end.

Declare Scope prog_scope.
Delimit Scope prog_scope with prog.
Notation "x <- m ;; k" := (bind m (fun x => k))
  (at level 100, m at next level, right associativity) : prog_scope.
Notation "m ;; k" := (bind m (fun _ => k))
  (at level 100, right associativity) : prog_scope.
Local Open Scope prog_scope.

Definition CRLF : string := String "013" (String "010" "").

Section Program.
Context {P : Platform}.

(** *** Integer conversions *)

(** Conversion to [tcflag_t], an unsigned type of [tcflag_bits] bits. *)
Definition to_tcflag (z : Z) : Z := z mod 2 ^ tcflag_bits.

(** [x &= ~(m)]: the complement is taken on [int] and converted. *)
Definition clear_flags (x m : Z) : Z := Z.land x (to_tcflag (Z.lnot m)).

(** [x |= (m)] *)
Definition set_flags (x m : Z) : Z := Z.lor x (to_tcflag m).

(** The value of a byte stored in a [char]. *)
Definition char_of_byte (b : ascii) : Z :=
  let n := Z.of_N (N_of_ascii b) in
  if char_signed && (128 <=? n) then n - 256 else n.

(** Conversion of an [int] to [unsigned char], as [%c] does. *)
Definition byte_of_int (c : Z) : ascii := ascii_of_N (Z.to_N (c mod 256)).

(** *** Reading the globals *)

Definition get_orig_termios : M termios := fun s => (Ret (orig_termios s), s).

Definition get_errno : M Z := fun s => (Ret (errno s), s).

(** *** libc and the operating system *)

(** [iscntrl] of [<ctype.h>] in the "C" locale, which is the locale of a
    program that never calls [setlocale]: the control characters are 0 to
    31 and 127.  Negative arguments, which a signed [char] produces for
    bytes above 127, are outside the function's domain in ISO C; the
    common C libraries answer 0 for them, and so does this definition. *)
Definition iscntrl (c : Z) : bool :=
  ((0 <=? c) && (c <=? 31)) || (c =? 127).

(** The conversion [%d]. *)
Definition fmt_d (c : Z) : string := NilZero.string_of_int (Z.to_int c).

(** The conversion [%c]. *)
Definition fmt_c (c : Z) : string := String (byte_of_int c) "".

Definition printf (text : string) : M unit :=
  fun s => (Ret tt, set_stdout (stdout s ++ text) s).

(** [perror(s)] writes one line, [s: <description of errno>]. *)
Definition perror_line (s : string) (e : Z) : string :=
  s ++ ": " ++ strerror e.

Definition perror (s : string) : M unit :=
  fun st => (Ret tt, set_stderr (stderr st ++ [perror_line s (errno st)]) st).

Definition exit (status : Z) : M unit := fun s => (Exit status, s).

(** [atexit(f)]; the registration itself is taken to succeed, the program
    does not look at its result. *)
Definition atexit (h : handler) : M unit :=
  fun s => (Ret tt, set_atexit_handlers (h :: atexit_handlers s) s).

(** [tcgetattr(STDIN_FILENO, p)]: on success the attributes of the
    terminal are stored through [p], here the setter [store]. *)
Definition tcgetattr (w : World) (store : termios -> state -> state) : M Z :=
  fun s =>
    match tcget w with
    | OK => (Ret 0, store (dev s) s)
    | Fail e => (Ret (-1), set_errno e s)
    end.

(** [tcsetattr(STDIN_FILENO, TCSAFLUSH, &t)]: on success [t] becomes the
    configuration of the terminal, on failure the terminal is unchanged. *)
Definition tcsetattr (w : World) (t : termios) : M Z :=
  fun s =>
    let s' := set_tcset_calls (S (tcset_calls s)) s in
    match tcset w (tcset_calls s) with
    | OK => (Ret 0, set_dev t s')
    | Fail e => (Ret (-1), set_errno e s')
    end.

(** [read(STDIN_FILENO, &c, 1)] when the terminal delivers [r]; the result
    is the return value and the content of [c] afterwards. *)
Definition read (r : read_result) (c : Z) : M (Z * Z) :=
  fun s =>
    match r with
    | RData b => (Ret (1, char_of_byte b), s)
    | RZero => (Ret (0, c), s)
    | RFail e => (Ret (-1, c), set_errno e s)
    end.

(** *** The functions of kilo.c *)

Definition die (s : string) : M unit :=
  perror s ;; exit 1.

Definition disableRawMode (w : World) : M unit :=
  orig <- get_orig_termios ;;
  r <- tcsetattr w orig ;;
  if r =? -1 then die "tcsetattr" else ret tt.

(** The raw attributes: the six assignments to the local copy [raw] of
    [orig_termios].  The two indexes are within the array on every
    platform; a list update outside the list would leave it unchanged. *)
Definition raw (orig : termios) : termios :=
  let iflag :=
    clear_flags (c_iflag orig)
      (Z.lor (Z.lor (Z.lor (Z.lor BRKINT ICRNL) INPCK) ISTRIP) IXON) in
  let oflag := clear_flags (c_oflag orig) OPOST in
  let cflag := set_flags (c_cflag orig) CS8 in
  let lflag :=
    clear_flags (c_lflag orig)
      (Z.lor (Z.lor (Z.lor ECHO ICANON) IEXTEN) ISIG) in
  let cc := <[VMIN := 0]> (c_cc orig) in
  let cc := <[VTIME := 1]> cc in
  {| c_iflag := iflag; c_oflag := oflag; c_cflag := cflag; c_lflag := lflag;
     c_cc := cc; c_impl := c_impl orig |}.

Definition enableRawMode (w : World) : M unit :=
  r <- tcgetattr w set_orig_termios ;;
  (if r =? -1 then die "tcsgetattr" else ret tt) ;;
  atexit H_disableRawMode ;;
  orig <- get_orig_termios ;;
  _ <- tcsetattr w (raw orig) ;;
  ret tt.

(** One turn of the [while (1)] loop of [main] when [read] delivers [r];
    the result tells whether the loop is left by [break].  [c] is set to
    ['\0'] before the read, and [errno] only matters when [read] returned
    -1. *)
Definition loop_body (r : read_result) : M bool :=
  let c := 0 in
  rc <- read r c ;;
  let n := fst rc in
  let c := snd rc in
  e <- get_errno ;;
  (if (n =? -1) && negb (e =? EAGAIN) then die "read" else ret tt) ;;
  (if iscntrl c
   then printf (fmt_d c ++ CRLF)
   else printf (fmt_d c ++ " ('" ++ fmt_c c ++ "')" ++ CRLF)) ;;
  ret (c =? 113).

(** The loop over the reads observed so far; when they are used up the
    program is waiting in the next [read]. *)
Fixpoint while_loop (rs : list read_result) : M unit :=
  match rs with
  | [] => fun s => (Pending, s)
  | r :: rs' =>
      brk <- loop_body r ;;
      if (brk : bool) then ret tt else while_loop rs'
  end.

Definition main (w : World) : M Z :=
  enableRawMode w ;;
  while_loop (stdin w) ;;
  ret 0.

(** *** Process exit *)

Definition call (w : World) (h : handler) : M unit :=
  match h with
  | H_disableRawMode => disableRawMode w
  end.

(** The registered functions are called most recent first.  When one of
    them calls [exit] itself, which ISO C leaves undefined, the common C
    libraries go on with the remaining functions and terminate with the
    status of the latest call; this is what is modelled. *)
Fixpoint run_handlers (w : World) (hs : list handler) (status : Z)
    (s : state) : Z * state :=
  match hs with
  | [] => (status, s)
  | h :: hs' =>
      match call w h s with
      | (Exit n, s') => run_handlers w hs' n s'
      | (_, s') => run_handlers w hs' status s'
      end
  end.

Definition exit_process (w : World) (status : Z) (s : state) : Z * state :=
  run_handlers w (atexit_handlers s) status (set_atexit_handlers [] s).

(** What is observed of a process: it has exited with a status, or it is
    still running, waiting for input. *)
Inductive outcome :=
| Exited (status : Z) (s : state)
| Running (s : state).

(** [main] returning [n] is [exit(n)]. *)
Definition run (w : World) : outcome :=
  match main w (init w) with
  | (Ret n, s) => let (n', s') := exit_process w n s in Exited n' s'
  | (Exit n, s) => let (n', s') := exit_process w n s in Exited n' s'
  | (Pending, s) => Running s
  end.

Definition final (o : outcome) : state :=
  match o with
  | Exited _ s => s
  | Running s => s
  end.

Definition exit_status (o : outcome) : option Z :=
  match o with
  | Exited n _ => Some n
  | Running _ => None
  end.

(** *** The vocabulary of the specification

    The specification describes each read attempt by a three-way result
    and each echoed byte by a line.  These definitions follow its words,
    to be compared with what [loop_body] does. *)

Inductive ByteResult :=
| Byte (b : ascii)
| NoDataYet
| Fatal (cause : Z).

(** "Returns [Byte(b)] if a byte arrived, [NoDataYet] if the timeout
    elapsed with nothing available or the read reports the transient
    try-again condition, [Fatal(cause)] for any other read failure." *)
Definition ReadOne (r : read_result) : ByteResult :=
  match r with
  | RData b => Byte b
  | RZero => NoDataYet
  | RFail e => if e =? EAGAIN then NoDataYet else Fatal e
  end.

(** The line of the specification for a byte: the decimal value of the
    byte, alone for a control byte, followed by the quoted character
    otherwise. *)
Definition spec_line (b : ascii) : string :=
  let n := Z.of_N (N_of_ascii b) in
  if iscntrl n
  then fmt_d n ++ CRLF
  else fmt_d n ++ " ('" ++ String b "" ++ "')" ++ CRLF.

(** The same line with the number taken from the byte as a [char]. *)
Definition char_line (b : ascii) : string :=
  let v := char_of_byte b in
  if iscntrl v
  then fmt_d v ++ CRLF
  else fmt_d v ++ " ('" ++ String b "" ++ "')" ++ CRLF.

(** Whether a read attempt is a [NoDataYet] of the specification. *)
Definition no_data_yet (r : read_result) : bool :=
  match ReadOne r with
  | NoDataYet => true
  | _ => false
  end.

(** [n] times the line ["0\r\n"]. *)
Fixpoint zero_lines (n : nat) : string :=
  match n with
  | O => ""
  | S n' => "0" ++ CRLF ++ zero_lines n'
  end.

End Program.

(** ** Two concrete platforms

    The values of the Linux headers ([asm-generic/termbits.h],
    [asm-generic/errno-base.h]); plain [char] is signed on x86-64 and
    unsigned on AArch64. *)

Definition linux_strerror (e : Z) : string :=
  if e =? 4 then "Interrupted system call"
  else if e =? 5 then "Input/output error"
  else if e =? 9 then "Bad file descriptor"
  else if e =? 11 then "Resource temporarily unavailable"
  else if e =? 25 then "Inappropriate ioctl for device"
  else "Unknown error".

Definition linux (signed_char : bool) : Platform :=
  {| tcflag_bits := 32;
     NCCS := 32; VMIN := 6; VTIME := 5;
     BRKINT := 2; ICRNL := 256; INPCK := 16; ISTRIP := 32; IXON := 1024;
     OPOST := 1;
     CS8 := 48;
     ECHO := 8; ICANON := 2; IEXTEN := 32768; ISIG := 1;
     EAGAIN := 11;
     char_signed := signed_char;
     strerror := linux_strerror |}.

Definition linux_x86_64 : Platform := linux true.
Definition linux_aarch64 : Platform := linux false.

(** The attributes of a freshly opened Linux terminal ("cooked" mode). *)
Definition cooked : termios :=
  {| c_iflag := 17664; c_oflag := 5; c_cflag := 191; c_lflag := 35387;
     c_cc := [3; 28; 127; 21; 4; 0; 1; 0; 17; 19; 26; 0; 18; 15; 23; 22;
              0; 0; 0; 0; 0; 0; 0; 0; 0; 0; 0; 0; 0; 0; 0; 0];
     c_impl := [0; 15; 15] |}.

(** ** Well-formedness *)

(** What every platform satisfies: the masks are values of [tcflag_t], the
    two indexes are distinct positions of [c_cc]. *)
Definition platform_okb (P : Platform) : bool :=
  (0 <? tcflag_bits) &&
  forallb (fun m => (0 <=? m) && (m <? 2 ^ tcflag_bits))
    [BRKINT; ICRNL; INPCK; ISTRIP; IXON; OPOST; CS8;
     ECHO; ICANON; IEXTEN; ISIG] &&
  (VMIN <? NCCS)%nat && (VTIME <? NCCS)%nat && negb (VMIN =? VTIME)%nat.

(** A [struct termios] of the platform: flag words in range, [c_cc] of the
    right size. *)
Definition termios_okb (P : Platform) (t : termios) : bool :=
  forallb (fun x => (0 <=? x) && (x <? 2 ^ tcflag_bits))
    [c_iflag t; c_oflag t; c_cflag t; c_lflag t] &&
  (length (c_cc t) =? NCCS)%nat.

(** ** Concrete worlds *)

(** A terminal on which everything succeeds and the user types [q]. *)
Definition world_quit : World :=
  {| dev0 := cooked; tcget := OK; tcset := fun _ => OK;
     stdin := [RData "q"] |}.

(** The terminal goes away after [q] was read: the [tcsetattr] of the exit
    handler, the second call, fails with [EIO]. *)
Definition world_restore_fails : World :=
  {| dev0 := cooked; tcget := OK;
     tcset := fun n => if (n =? 1)%nat then Fail 5 else OK;
     stdin := [RData "q"] |}.

(** The raw attributes cannot be applied: the first [tcsetattr] fails with
    [EIO]; the user then types [q]. *)
Definition world_apply_fails : World :=
  {| dev0 := cooked; tcget := OK;
     tcset := fun n => if (n =? 0)%nat then Fail 5 else OK;
     stdin := [RData "q"] |}.

(** Nobody types: three read attempts, two timeouts and one [EAGAIN]. *)
Definition world_idle : World :=
  {| dev0 := cooked; tcget := OK; tcset := fun _ => OK;
     stdin := [RZero; RFail 11; RZero] |}.

(** The user types [a], then the read fails with [EIO]. *)
Definition world_read_fails : World :=
  {| dev0 := cooked; tcget := OK; tcset := fun _ => OK;
     stdin := [RData "a"; RFail 5; RData "q"] |}.

(** The user types [h], pauses, types [q] and then [z]. *)
Definition world_typing : World :=
  {| dev0 := cooked; tcget := OK; tcset := fun _ => OK;
     stdin := [RData "h"; RZero; RData "q"; RData "z"] |}.

(** The byte 0xE9. *)
Definition byte_E9 : ascii := "233"%char.

(** Standard input is not a terminal: [tcgetattr] fails with [ENOTTY],
    although a [q] is waiting to be read. *)
Definition world_query_fails : World :=
  {| dev0 := cooked; tcget := Fail 25; tcset := fun _ => OK;
     stdin := [RData "q"] |}.

(** The terminal is gone from the start of the loop: the read fails with
    [EIO], and so does the restoration. *)
Definition world_hangup : World :=
  {| dev0 := cooked; tcget := OK;
     tcset := fun n => if (n =? 1)%nat then Fail 5 else OK;
     stdin := [RFail 5] |}.

(** The byte 0x00, which Ctrl-Space sends. *)
Definition byte_NUL : ascii := "000"%char.

(** * Properties *)

Section Equations.
Context {P : Platform}.

(** ** What one turn of the loop does *)

Lemma byte_of_char_of_byte (b : ascii) : byte_of_int (char_of_byte b) = b.
Proof.
  unfold byte_of_int, char_of_byte.
  pose proof (N_ascii_bounded b) as Hb.
  set (n := N_of_ascii b) in *.
  assert (Hn : 0 <= Z.of_N n < 256) by lia.
  assert (Hmod : (if char_signed && (128 <=? Z.of_N n)
                  then Z.of_N n - 256 else Z.of_N n) mod 256 = Z.of_N n).
  { destruct (char_signed && (128 <=? Z.of_N n)).
    - replace (Z.of_N n - 256) with (Z.of_N n + (-1) * 256) by lia.
      rewrite Z.mod_add by lia. apply Z.mod_small; lia.
    - apply Z.mod_small; lia. }
  rewrite Hmod, N2Z.id. apply ascii_N_embedding.
Qed.

Lemma char_of_byte_low (b : ascii) :
  (N_of_ascii b < 128)%N -> char_of_byte b = Z.of_N (N_of_ascii b).
Proof.
  intros Hlow. unfold char_of_byte.
  destruct (Z.leb_spec 128 (Z.of_N (N_of_ascii b))); [lia|].
  now rewrite andb_false_r.
Qed.

Lemma char_of_byte_unsigned (b : ascii) :
  char_signed = false -> char_of_byte b = Z.of_N (N_of_ascii b).
Proof. intros Hu. unfold char_of_byte. now rewrite Hu. Qed.

Lemma char_of_byte_q (b : ascii) :
  (char_of_byte b =? 113) = true <-> b = "q"%char.
Proof.
  split.
  - intros H. apply Z.eqb_eq in H.
    rewrite <- (byte_of_char_of_byte b), H. reflexivity.
  - intros ->. unfold char_of_byte. simpl. now rewrite andb_false_r.
Qed.

Lemma loop_body_data (b : ascii) (s : state) :
  loop_body (RData b) s =
  (Ret (char_of_byte b =? 113), set_stdout (stdout s ++ char_line b) s).
Proof.
  unfold loop_body, char_line, bind, read, get_errno, printf, ret, fmt_c.
  cbn [fst snd Z.eqb andb]. rewrite byte_of_char_of_byte.
  destruct (iscntrl (char_of_byte b)); reflexivity.
Qed.

Lemma loop_body_zero (s : state) :
  loop_body RZero s = (Ret false, set_stdout (stdout s ++ "0" ++ CRLF) s).
Proof. reflexivity. Qed.

Lemma loop_body_fail (e : Z) (s : state) :
  loop_body (RFail e) s =
  if e =? EAGAIN
  then (Ret false, set_stdout (stdout s ++ "0" ++ CRLF) (set_errno e s))
  else (Exit 1,
        set_stderr (stderr s ++ [perror_line "read" e]) (set_errno e s)).
Proof.
  unfold loop_body, bind, read, get_errno, die, perror, exit, printf, ret.
  cbn [fst snd Z.eqb andb errno set_errno].
  destruct (e =? EAGAIN); reflexivity.
Qed.

Lemma loop_body_not_pending (r : read_result) (s : state) :
  fst (loop_body r s) <> Pending.
Proof.
  destruct r as [b| |e].
  - now rewrite loop_body_data.
  - now rewrite loop_body_zero.
  - rewrite loop_body_fail. now destruct (e =? EAGAIN).
Qed.

(** ** What the loop leaves alone *)

Lemma same_session_refl (s : state) : same_session s s.
Proof. repeat split. Qed.

Lemma same_session_trans (s1 s2 s3 : state) :
  same_session s1 s2 -> same_session s2 s3 -> same_session s1 s3.
Proof. unfold same_session. intuition congruence. Qed.

Lemma loop_body_session (r : read_result) (s : state) :
  same_session s (snd (loop_body r s)).
Proof.
  destruct r as [b| |e].
  - rewrite loop_body_data. repeat split.
  - rewrite loop_body_zero. repeat split.
  - rewrite loop_body_fail. destruct (e =? EAGAIN); repeat split.
Qed.

Lemma while_loop_cons (r : read_result) (rs : list read_result) (s : state) :
  while_loop (r :: rs) s =
  match loop_body r s with
  | (Ret true, s') => (Ret tt, s')
  | (Ret false, s') => while_loop rs s'
  | (Exit n, s') => (Exit n, s')
  | (Pending, s') => (Pending, s')
  end.
Proof.
  cbn [while_loop]. unfold bind.
  destruct (loop_body r s) as [[[|]| |] s']; reflexivity.
Qed.

Lemma while_loop_session (rs : list read_result) (s : state) :
  same_session s (snd (while_loop rs s)).
Proof.
  revert s. induction rs as [|r rs IH]; intros s.
  - apply same_session_refl.
  - rewrite while_loop_cons.
    pose proof (loop_body_session r s) as Hb.
    destruct (loop_body r s) as [[[|]| |] s']; cbn [snd] in *; auto.
    eapply same_session_trans; eauto.
Qed.

(** Reads that were consumed without leaving the loop can be split off. *)
Lemma while_loop_app (pre rs : list read_result) (s s1 : state) :
  while_loop pre s = (Pending, s1) ->
  while_loop (pre ++ rs) s = while_loop rs s1.
Proof.
  revert s. induction pre as [|r pre IH]; intros s Hpre.
  - cbn in Hpre. injection Hpre as ->. reflexivity.
  - cbn [app]. rewrite while_loop_cons in *.
    pose proof (loop_body_not_pending r s) as Hnp.
    destruct (loop_body r s) as [[[|]| |] s']; try discriminate; auto.
    now contradiction Hnp.
Qed.

(** Whatever the loop does, [stderr] only grows by the report of a fatal
    read, and only when the loop ends in [exit(1)]. *)
Lemma while_loop_stderr (rs : list read_result) (s : state) :
  match while_loop rs s with
  | (Exit n, s') =>
      n = 1 /\
      exists (pre : list read_result) e rest,
        rs = (pre ++ RFail e :: rest)%list /\ (e =? EAGAIN) = false /\
        (exists s1, while_loop pre s = (Pending, s1)) /\
        stderr s' = (stderr s ++ [perror_line "read" e])%list /\
        errno s' = e
  | (_, s') => stderr s' = stderr s
  end.
Proof.
  revert s. induction rs as [|r rs IH]; intros s; [reflexivity|].
  rewrite while_loop_cons.
  destruct r as [b| |e].
  - rewrite loop_body_data. destruct (char_of_byte b =? 113) eqn:Hq.
    + reflexivity.
    + specialize (IH (set_stdout (stdout s ++ char_line b) s)).
      destruct (while_loop rs _) as [[?|n|] s'] eqn:Hw; auto.
      destruct IH as (-> & pre & e & rest & -> & He & [s1 Hs1] & Herr & Hno).
      split; [reflexivity|]. exists (RData b :: pre), e, rest.
      repeat split; auto. exists s1. rewrite while_loop_cons, loop_body_data, Hq.
      exact Hs1.
  - rewrite loop_body_zero.
    specialize (IH (set_stdout (stdout s ++ "0" ++ CRLF) s)).
    destruct (while_loop rs _) as [[?|n|] s'] eqn:Hw; auto.
    destruct IH as (-> & pre & e & rest & -> & He & [s1 Hs1] & Herr & Hno).
    split; [reflexivity|]. exists (RZero :: pre), e, rest.
    repeat split; auto. exists s1. rewrite while_loop_cons, loop_body_zero.
    exact Hs1.
  - rewrite loop_body_fail. destruct (e =? EAGAIN) eqn:He.
    + specialize (IH (set_stdout (stdout s ++ "0" ++ CRLF) (set_errno e s))).
      destruct (while_loop rs _) as [[?|n|] s'] eqn:Hw; auto.
      destruct IH as (-> & pre & e' & rest & -> & He' & [s1 Hs1] & Herr & Hno).
      split; [reflexivity|]. exists (RFail e :: pre), e', rest.
      repeat split; auto. exists s1.
      rewrite while_loop_cons, loop_body_fail, He. exact Hs1.
    + split; [reflexivity|]. exists [], e, rs.
      repeat split; auto. exists s. reflexivity.
Qed.

End Equations.

Section Session.
Context {P : Platform}.

(** ** Entering and leaving raw mode *)

Lemma enableRawMode_query_fails (w : World) (s : state) (e : Z) :
  tcget w = Fail e ->
  enableRawMode w s =
  (Exit 1,
   set_stderr (stderr s ++ [perror_line "tcsgetattr" e]) (set_errno e s)).
Proof.
  intros Hget. unfold enableRawMode, bind, tcgetattr. rewrite Hget.
  reflexivity.
Qed.

Lemma enableRawMode_captures (w : World) (s : state) :
  tcget w = OK ->
  exists s1,
    enableRawMode w s = (Ret tt, s1) /\
    orig_termios s1 = dev s /\
    atexit_handlers s1 = H_disableRawMode :: atexit_handlers s /\
    tcset_calls s1 = S (tcset_calls s) /\
    stdout s1 = stdout s /\ stderr s1 = stderr s /\
    dev s1 = match tcset w (tcset_calls s) with
             | OK => raw (dev s)
             | Fail _ => dev s
             end.
Proof.
  intros Hget.
  unfold enableRawMode, bind, tcgetattr, atexit, get_orig_termios, tcsetattr.
  rewrite Hget. cbn.
  destruct (tcset w (tcset_calls s)); eexists; repeat split.
Qed.

Lemma enableRawMode_ret_inv (w : World) (s s1 : state) :
  enableRawMode w s = (Ret tt, s1) -> tcget w = OK.
Proof.
  intros H. destruct (tcget w) as [|e] eqn:Hget; [reflexivity|].
  rewrite (enableRawMode_query_fails w s e Hget) in H. discriminate.
Qed.

Lemma disableRawMode_ok (w : World) (s : state) :
  tcset w (tcset_calls s) = OK ->
  disableRawMode w s =
  (Ret tt, set_dev (orig_termios s) (set_tcset_calls (S (tcset_calls s)) s)).
Proof.
  intros Hset. unfold disableRawMode, bind, get_orig_termios, tcsetattr.
  rewrite Hset. reflexivity.
Qed.

Lemma disableRawMode_fail (w : World) (s : state) (e : Z) :
  tcset w (tcset_calls s) = Fail e ->
  disableRawMode w s =
  (Exit 1,
   set_stderr (stderr s ++ [perror_line "tcsetattr" e])
     (set_errno e (set_tcset_calls (S (tcset_calls s)) s))).
Proof.
  intros Hset. unfold disableRawMode, bind, get_orig_termios, tcsetattr.
  rewrite Hset. reflexivity.
Qed.

Lemma disableRawMode_ret_inv (w : World) (s s2 : state) :
  disableRawMode w s = (Ret tt, s2) -> dev s2 = orig_termios s.
Proof.
  intros H. destruct (tcset w (tcset_calls s)) as [|e] eqn:Hset.
  - rewrite (disableRawMode_ok w s Hset) in H. now injection H as <-.
  - rewrite (disableRawMode_fail w s e Hset) in H. discriminate.
Qed.

Lemma disableRawMode_orig (w : World) (s : state) :
  orig_termios (snd (disableRawMode w s)) = orig_termios s.
Proof.
  destruct (tcset w (tcset_calls s)) as [|e] eqn:Hset.
  - now rewrite (disableRawMode_ok w s Hset).
  - now rewrite (disableRawMode_fail w s e Hset).
Qed.

(** ** Process exit *)

Lemma run_handlers_orig (w : World) (hs : list handler) (n : Z) (s : state) :
  orig_termios (snd (run_handlers w hs n s)) = orig_termios s.
Proof.
  revert n s. induction hs as [|[] hs IH]; intros n s; [reflexivity|].
  cbn [run_handlers call].
  pose proof (disableRawMode_orig w s) as Ho.
  destruct (disableRawMode w s) as [[?|?|] s']; cbn [snd] in Ho;
    rewrite IH; exact Ho.
Qed.

(** Exit with [disableRawMode] as the only registered function. *)
Lemma exit_process_restore (w : World) (n : Z) (s : state) :
  atexit_handlers s = [H_disableRawMode] ->
  exit_process w n s =
  match tcset w (tcset_calls s) with
  | OK =>
      (n, set_dev (orig_termios s)
            (set_tcset_calls (S (tcset_calls s)) (set_atexit_handlers [] s)))
  | Fail e =>
      (1, set_stderr (stderr s ++ [perror_line "tcsetattr" e])
            (set_errno e
               (set_tcset_calls (S (tcset_calls s))
                  (set_atexit_handlers [] s))))
  end.
Proof.
  intros Hh. unfold exit_process. rewrite Hh. cbn [run_handlers call].
  destruct (tcset w (tcset_calls s)) as [|e] eqn:Hset.
  - rewrite disableRawMode_ok by exact Hset. reflexivity.
  - rewrite (disableRawMode_fail _ _ e) by exact Hset. reflexivity.
Qed.

(** Exit with nothing registered. *)
Lemma exit_process_none (w : World) (n : Z) (s : state) :
  atexit_handlers s = [] ->
  exit_process w n s = (n, set_atexit_handlers [] s).
Proof. intros Hh. unfold exit_process. now rewrite Hh. Qed.

(** ** The whole process *)

Lemma main_unfold (w : World) (s : state) :
  main w s =
  match enableRawMode w s with
  | (Ret _, s0) =>
      match while_loop (stdin w) s0 with
      | (Ret _, s1) => (Ret 0, s1)
      | (Exit n, s1) => (Exit n, s1)
      | (Pending, s1) => (Pending, s1)
      end
  | (Exit n, s0) => (Exit n, s0)
  | (Pending, s0) => (Pending, s0)
  end.
Proof.
  unfold main, bind, ret.
  destruct (enableRawMode w s) as [[?|?|] s0]; reflexivity.
Qed.

(** The query fails: one diagnostic, status 1, the terminal untouched. *)
Lemma run_query_fails (w : World) (e : Z) :
  tcget w = Fail e ->
  exists s,
    run w = Exited 1 s /\ dev s = dev0 w /\ stdout s = "" /\
    stderr s = [perror_line "tcsgetattr" e].
Proof.
  intros Hget. unfold run. rewrite main_unfold.
  rewrite (enableRawMode_query_fails w (init w) e Hget).
  rewrite exit_process_none by reflexivity.
  eexists. repeat split.
Qed.

(** After a successful query the process is described by the loop, run
    from the state [enableRawMode] leaves, followed by the restoration. *)
Lemma run_session (w : World) :
  tcget w = OK ->
  exists s0,
    enableRawMode w (init w) = (Ret tt, s0) /\
    orig_termios s0 = dev0 w /\ stdout s0 = "" /\ stderr s0 = [] /\
    dev s0 = match tcset w 0%nat with
             | OK => raw (dev0 w)
             | Fail _ => dev0 w
             end /\
    match while_loop (stdin w) s0 with
    | (Pending, s1) => run w = Running s1
    | (Ret _, s1) =>
        main w (init w) = (Ret 0, s1) /\
        match tcset w 1%nat with
        | OK =>
            exists s2, run w = Exited 0 s2 /\ dev s2 = dev0 w /\
                       stdout s2 = stdout s1 /\ stderr s2 = stderr s1 /\
                       orig_termios s2 = dev0 w
        | Fail e =>
            exists s2, run w = Exited 1 s2 /\ dev s2 = dev s0 /\
                       stdout s2 = stdout s1 /\
                       stderr s2 = (stderr s1 ++ [perror_line "tcsetattr" e])%list /\
                       orig_termios s2 = dev0 w
        end
    | (Exit n, s1) =>
        main w (init w) = (Exit n, s1) /\
        match tcset w 1%nat with
        | OK =>
            exists s2, run w = Exited n s2 /\ dev s2 = dev0 w /\
                       stdout s2 = stdout s1 /\ stderr s2 = stderr s1 /\
                       orig_termios s2 = dev0 w
        | Fail e =>
            exists s2, run w = Exited 1 s2 /\ dev s2 = dev s0 /\
                       stdout s2 = stdout s1 /\
                       stderr s2 = (stderr s1 ++ [perror_line "tcsetattr" e])%list /\
                       orig_termios s2 = dev0 w
        end
    end.
Proof.
  intros Hget.
  destruct (enableRawMode_captures w (init w) Hget)
    as (s0 & Hen & Horig & Hh & Hcalls & Hout & Herr & Hdev).
  exists s0. repeat split; auto.
  unfold run. rewrite main_unfold, Hen.
  pose proof (while_loop_session (stdin w) s0) as (Hd & Ho & Hhs & Hc).
  destruct (while_loop (stdin w) s0) as [[?|n|] s1]; cbn [snd] in *.
  3: reflexivity.
  all: split; try reflexivity.
  all: rewrite exit_process_restore by (rewrite Hhs, Hh; reflexivity).
  all: rewrite Hc, Hcalls; cbn [init tcset_calls].
  all: destruct (tcset w 1%nat) as [|e]; eexists; split; try reflexivity.
  all: cbn; rewrite ?Ho, ?Horig, ?Hd; repeat split; reflexivity.
Qed.

End Session.

Section SessionClaims.
Context {P : Platform}.

Lemma string_app_assoc (a b c : string) : (a ++ b) ++ c = a ++ (b ++ c).
Proof. induction a as [|x a IH]; cbn; [reflexivity | now rewrite IH]. Qed.

Lemma string_app_nil_r (a : string) : a ++ "" = a.
Proof. induction a as [|x a IH]; cbn; [reflexivity | now rewrite IH]. Qed.

(** ** Restoration at exit *)

(** C1 (as amended).  Where the process ends, by returning from [main]
    after [q] or through [die]:
    - when the initial query failed, nothing was captured or registered
      and the terminal has the attributes it was found with;
    - otherwise [orig_termios] holds the attributes found at entry, and
      when the [tcsetattr] of the exit handler (the second call) succeeds
      the terminal has exactly these attributes again;
    - when that [tcsetattr] fails the terminal keeps what it had, the
      handler reports it last on [stderr] and the status is 1. *)
Theorem C1_restored_on_exit (w : World) (n : Z) (s : state) :
  run w = Exited n s ->
  match tcget w with
  | Fail _ => dev s = dev0 w
  | OK =>
      orig_termios s = dev0 w /\
      match tcset w 1%nat with
      | OK => dev s = orig_termios s
      | Fail e =>
          dev s = match tcset w 0%nat with
                  | OK => raw (dev0 w)
                  | Fail _ => dev0 w
                  end /\
          n = 1 /\ last (stderr s) = Some (perror_line "tcsetattr" e)
      end
  end.
Proof.
  intros Hrun.
  destruct (tcget w) as [|e] eqn:Hget.
  - destruct (run_session w Hget) as (s0 & _ & _ & _ & _ & Hdev0 & Hloop).
    destruct (while_loop (stdin w) s0) as [[?|m|] s1].
    3: { rewrite Hloop in Hrun. discriminate. }
    all: destruct Hloop as (_ & Hloop).
    all: destruct (tcset w 1%nat) as [|e'].
    all: destruct Hloop as (s2 & Hr & Hd & _ & Herr & Ho).
    all: rewrite Hr in Hrun; injection Hrun as <- <-.
    all: split; [exact Ho|].
    1,3: congruence.
    all: rewrite Hd, Hdev0, Herr, last_snoc; auto.
  - destruct (run_query_fails w e Hget) as (s2 & Hr & Hd & _).
    rewrite Hr in Hrun. injection Hrun as _ <-. exact Hd.
Qed.

(** ** Round trip *)

(** C2.  [enableRawMode] followed by [disableRawMode], both returning,
    leaves the terminal with the attributes it had before. *)
Theorem C2_round_trip (w : World) (s s1 s2 : state) :
  enableRawMode w s = (Ret tt, s1) ->
  disableRawMode w s1 = (Ret tt, s2) ->
  dev s2 = dev s.
Proof.
  intros Hen Hdis.
  pose proof (enableRawMode_ret_inv w s s1 Hen) as Hget.
  destruct (enableRawMode_captures w s Hget) as (s1' & Hen' & Horig & _).
  rewrite Hen in Hen'. injection Hen' as <-.
  rewrite (disableRawMode_ret_inv w s1 s2 Hdis). exact Horig.
Qed.

(** ** The unchecked apply *)

(** When the apply of the raw attributes fails, [enableRawMode] returns
    as if nothing had happened: no diagnostic, no exit, and the terminal
    keeps its attributes. *)
Lemma enableRawMode_apply_unchecked (w : World) (s : state) (e : Z) :
  tcget w = OK ->
  tcset w (tcset_calls s) = Fail e ->
  exists s1, enableRawMode w s = (Ret tt, s1) /\
             stderr s1 = stderr s /\ dev s1 = dev s.
Proof.
  intros Hget Hset.
  destruct (enableRawMode_captures w s Hget)
    as (s1 & Hen & _ & _ & _ & _ & Herr & Hdev).
  rewrite Hset in Hdev. eauto.
Qed.

(** When the apply succeeds the terminal has the raw attributes. *)
Lemma enableRawMode_applies_raw (w : World) (s : state) :
  tcget w = OK ->
  tcset w (tcset_calls s) = OK ->
  exists s1, enableRawMode w s = (Ret tt, s1) /\ dev s1 = raw (dev s).
Proof.
  intros Hget Hset.
  destruct (enableRawMode_captures w s Hget)
    as (s1 & Hen & _ & _ & _ & _ & _ & Hdev).
  rewrite Hset in Hdev. eauto.
Qed.

End SessionClaims.

(** C1, the claim as written fails: [q] is read, the exit handler is
    registered and runs, its [tcsetattr] fails, and the process ends with
    the terminal in raw mode, different from the captured baseline. *)
Lemma C1_counterexample :
  exists n s,
    @run linux_x86_64 world_restore_fails = Exited n s /\
    orig_termios s = dev0 world_restore_fails /\
    dev s = @raw linux_x86_64 (dev0 world_restore_fails) /\
    dev s <> orig_termios s.
Proof.
  eexists _, _. split; [vm_compute; reflexivity|].
  repeat split. discriminate.
Qed.

(** On [world_quit] the restoration succeeds. *)
Lemma C1_restored_on_exit_witness :
  orig_termios (final (@run linux_x86_64 world_quit)) = dev0 world_quit /\
  dev (final (@run linux_x86_64 world_quit)) =
  orig_termios (final (@run linux_x86_64 world_quit)).
Proof.
  apply (@C1_restored_on_exit linux_x86_64 world_quit 0
           (final (@run linux_x86_64 world_quit))).
  vm_compute. reflexivity.
Defined.

(** Entering and leaving on a terminal where every call succeeds. *)
Lemma C2_round_trip_witness :
  dev (snd (@disableRawMode linux_x86_64 world_quit
              (snd (@enableRawMode linux_x86_64 world_quit
                      (init world_quit))))) =
  dev (init world_quit).
Proof.
  apply (@C2_round_trip linux_x86_64 world_quit (init world_quit)
           (snd (@enableRawMode linux_x86_64 world_quit (init world_quit)))).
  - vm_compute. reflexivity.
  - vm_compute. reflexivity.
Defined.

(** C3, evaluated where the code departs from the claim: the first
    [tcsetattr], the apply of the raw attributes, fails with [EIO].
    [enableRawMode] returns normally, nothing is written to [stderr], the
    terminal keeps the cooked attributes, and the process goes on to read
    [q] and exits with status 0. *)
Theorem C3_apply_failure_ignored :
  tcset world_apply_fails 0%nat = Fail 5 /\
  (exists s0,
     @enableRawMode linux_x86_64 world_apply_fails (init world_apply_fails)
     = (Ret tt, s0) /\
     stderr s0 = [] /\ dev s0 = cooked /\ dev s0 <> @raw linux_x86_64 cooked) /\
  (exists s,
     @run linux_x86_64 world_apply_fails = Exited 0 s /\ stderr s = []).
Proof.
  split; [reflexivity|]. split.
  - eexists. split; [vm_compute; reflexivity|]. repeat split. discriminate.
  - eexists. split; [vm_compute; reflexivity|]. reflexivity.
Qed.

Section LoopClaims.
Context {P : Platform}.

(** ** The loop without input *)

Lemma no_data_yet_cases (r : read_result) :
  no_data_yet r = true ->
  r = RZero \/ exists e, r = RFail e /\ (e =? EAGAIN) = true.
Proof.
  destruct r as [b| |e]; cbn; try discriminate; auto.
  unfold no_data_yet. cbn. destruct (e =? EAGAIN) eqn:He; [|discriminate].
  right. eauto.
Qed.

(** C4 (as amended).  When every read attempt yields [NoDataYet] (a
    timeout or [EAGAIN]) the loop writes the line ["0\r\n"] for each
    attempt, writes no diagnostic, and is still running after any number of
    attempts. *)
Theorem C4_idle_loop (rs : list read_result) (s : state) :
  forallb no_data_yet rs = true ->
  exists s',
    while_loop rs s = (Pending, s') /\
    stdout s' = stdout s ++ zero_lines (length rs) /\
    stderr s' = stderr s.
Proof.
  revert s. induction rs as [|r rs IH]; intros s Hall.
  - exists s. cbn. now rewrite string_app_nil_r.
  - cbn [forallb] in Hall. apply andb_prop in Hall as [Hr Hall].
    rewrite while_loop_cons.
    destruct (no_data_yet_cases r Hr) as [->|(e & -> & He)].
    + rewrite loop_body_zero.
      destruct (IH (set_stdout (stdout s ++ "0" ++ CRLF) s) Hall)
        as (s' & Hw & Hout & Herr).
      exists s'. split; [exact Hw|]. split; [|exact Herr].
      rewrite Hout. cbn [stdout set_stdout length zero_lines].
      now rewrite !string_app_assoc.
    + rewrite loop_body_fail, He.
      destruct (IH (set_stdout (stdout s ++ "0" ++ CRLF) (set_errno e s)) Hall)
        as (s' & Hw & Hout & Herr).
      exists s'. split; [exact Hw|]. split; [|exact Herr].
      rewrite Hout. cbn [stdout set_stdout set_errno length zero_lines].
      now rewrite !string_app_assoc.
Qed.

(** ** The byte [q] *)

(** C5 (as amended).  When [q] is read the loop writes exactly the line
    ["113 ('q')\r\n"] and is left at once, whatever input follows, and
    [main] returns 0.  The process then exits with status 0 when the
    restoration run by the exit handler succeeds, and with status 1 when
    it fails. *)
Theorem C5_quit_on_q (w : World) (pre rest : list read_result)
    (s0 s1 : state) :
  stdin w = (pre ++ RData "q" :: rest)%list ->
  enableRawMode w (init w) = (Ret tt, s0) ->
  while_loop pre s0 = (Pending, s1) ->
  let s2 := set_stdout (stdout s1 ++ "113 ('q')" ++ CRLF) s1 in
  loop_body (RData "q") s1 = (Ret true, s2) /\
  while_loop (RData "q" :: rest) s1 = (Ret tt, s2) /\
  main w (init w) = (Ret 0, s2) /\
  exists s3,
    run w = Exited (match tcset w 1%nat with OK => 0 | Fail _ => 1 end) s3 /\
    stdout s3 = stdout s2.
Proof.
  intros Hin Hen Hpre s2.
  assert (Hbody : loop_body (RData "q") s1 = (Ret true, s2)).
  { rewrite loop_body_data. unfold s2, char_line, char_of_byte.
    cbn. rewrite andb_false_r. reflexivity. }
  assert (Hloop : while_loop (RData "q" :: rest) s1 = (Ret tt, s2)).
  { rewrite while_loop_cons, Hbody. reflexivity. }
  pose proof (enableRawMode_ret_inv w _ _ Hen) as Hget.
  destruct (run_session w Hget) as (s0' & Hen' & _ & _ & _ & _ & Hrun).
  rewrite Hen in Hen'. injection Hen' as <-.
  rewrite Hin, (while_loop_app pre _ s0 s1 Hpre), Hloop in Hrun.
  destruct Hrun as (Hmain & Hrun).
  repeat split; auto.
  destruct (tcset w 1%nat); destruct Hrun as (s3 & Hr & _ & Hout & _);
    exists s3; auto.
Qed.

(** ** The echoed line *)

(** C6 (as amended).  For every byte [b] delivered by a read, the loop
    writes one line built from the value [v] that [b] has as a [char]: the
    decimal of [v] and ["\r\n"] when [v] is a control character, and
    otherwise the decimal of [v], a space, [b] between single quotes and
    parentheses, and ["\r\n"].  The number is the value of the byte, as the
    specification has it, for every byte up to 0x7F, and for every byte
    where [char] is unsigned. *)
Theorem C6_echo_line (b : ascii) (s : state) :
  loop_body (RData b) s =
  (Ret (char_of_byte b =? 113), set_stdout (stdout s ++ char_line b) s) /\
  (char_signed = false \/ (N_of_ascii b < 128)%N -> char_line b = spec_line b).
Proof.
  split; [apply loop_body_data|].
  intros Hcase. unfold char_line, spec_line.
  assert (Hv : char_of_byte b = Z.of_N (N_of_ascii b)).
  { destruct Hcase; [now apply char_of_byte_unsigned
                    | now apply char_of_byte_low]. }
  now rewrite Hv.
Qed.

(** ** Classification of a read *)

(** C7.  A timeout and [EAGAIN] are not fatal: the turn of the loop ends
    normally, nothing is written to [stderr] and the loop goes on.  Every
    other read failure is fatal: [die("read")] writes its diagnostic and
    calls [exit(1)]; the process exits with status 1 and the diagnostic of
    the read appears once, first on [stderr], followed at most by the
    report of a failed restoration. *)
Theorem C7_read_classification (w : World) (pre rest : list read_result)
    (r : read_result) (s0 s1 : state) :
  stdin w = (pre ++ r :: rest)%list ->
  enableRawMode w (init w) = (Ret tt, s0) ->
  while_loop pre s0 = (Pending, s1) ->
  match ReadOne r with
  | Byte b =>
      exists s2, loop_body r s1 = (Ret (char_of_byte b =? 113), s2) /\
                 stderr s2 = []
  | NoDataYet =>
      exists s2, loop_body r s1 = (Ret false, s2) /\ stderr s2 = []
  | Fatal cause =>
      loop_body r s1 =
      (Exit 1, set_stderr [perror_line "read" cause] (set_errno cause s1)) /\
      exists s3,
        run w = Exited 1 s3 /\
        stdout s3 = stdout s1 /\
        (stderr s3 = [perror_line "read" cause] \/
         exists e, stderr s3 = [perror_line "read" cause;
                                perror_line "tcsetattr" e])
  end.
Proof.
  intros Hin Hen Hpre.
  pose proof (enableRawMode_ret_inv w _ _ Hen) as Hget.
  destruct (run_session w Hget) as (s0' & Hen' & _ & _ & Herr0 & _ & Hrun).
  rewrite Hen in Hen'. injection Hen' as <-.
  assert (Herr1 : stderr s1 = []).
  { pose proof (while_loop_stderr pre s0) as H. rewrite Hpre in H.
    congruence. }
  destruct r as [b| |e]; cbn [ReadOne].
  - rewrite loop_body_data. eexists. split; [reflexivity|]. exact Herr1.
  - rewrite loop_body_zero. eexists. split; [reflexivity|]. exact Herr1.
  - rewrite loop_body_fail. destruct (e =? EAGAIN) eqn:He.
    + eexists. split; [reflexivity|]. exact Herr1.
    + rewrite Herr1. split; [reflexivity|].
      rewrite Hin, (while_loop_app pre _ s0 s1 Hpre) in Hrun.
      rewrite while_loop_cons, loop_body_fail, He, Herr1 in Hrun.
      destruct Hrun as (_ & Hrun).
      destruct (tcset w 1%nat) as [|e'];
        destruct Hrun as (s3 & Hr & _ & Hout & Herr & _);
        exists s3; repeat split; auto.
      right. exists e'. exact Herr.
Qed.

(** ** Input without [q] *)

Lemma while_loop_ret_q (rs : list read_result) (s s' : state) :
  while_loop rs s = (Ret tt, s') -> RData "q" ∈ rs.
Proof.
  revert s. induction rs as [|r rs IH]; intros s Hw; [discriminate|].
  rewrite while_loop_cons in Hw.
  destruct r as [b| |e].
  - rewrite loop_body_data in Hw.
    destruct (char_of_byte b =? 113) eqn:Hq.
    + apply char_of_byte_q in Hq as ->. apply list_elem_of_here.
    + apply list_elem_of_further. eauto.
  - rewrite loop_body_zero in Hw. apply list_elem_of_further. eauto.
  - rewrite loop_body_fail in Hw. destruct (e =? EAGAIN); [|discriminate].
    apply list_elem_of_further. eauto.
Qed.

(** C8.  On input without the byte [q] the loop never stops normally:
    either it is still running when the input observed so far is used up,
    or it was ended by [die("read")] at the first fatal read error. *)
Theorem C8_only_fatal_read_stops (rs : list read_result) (s : state) :
  RData "q" ∉ rs ->
  (exists s', while_loop rs s = (Pending, s')) \/
  (exists (pre : list read_result) e rest s1 s',
     rs = (pre ++ RFail e :: rest)%list /\
     ReadOne (RFail e) = Fatal e /\
     while_loop pre s = (Pending, s1) /\
     while_loop rs s = (Exit 1, s') /\
     stderr s' = (stderr s ++ [perror_line "read" e])%list).
Proof.
  intros Hnoq.
  pose proof (while_loop_stderr rs s) as Hs.
  destruct (while_loop rs s) as [[[]|n|] s'] eqn:Hw.
  - contradiction Hnoq. eapply while_loop_ret_q; eauto.
  - destruct Hs as (-> & pre & e & rest & Hrs & He & [s1 Hs1] & Herr & _).
    right. exists pre, e, rest, s1, s'. repeat split; auto.
    cbn. now rewrite He.
  - left. eauto.
Qed.

End LoopClaims.

Section RawAttributes.
Context {P : Platform}.

(** ** The raw attributes, bit by bit *)

Lemma platform_okb_inv :
  platform_okb P = true ->
  0 < tcflag_bits /\ 0 <= CS8 < 2 ^ tcflag_bits /\
  (VMIN < NCCS)%nat /\ (VTIME < NCCS)%nat /\ VMIN <> VTIME.
Proof.
  unfold platform_okb. cbn [forallb].
  rewrite !andb_true_iff, negb_true_iff, Nat.eqb_neq, !Nat.ltb_lt.
  rewrite Z.ltb_lt. intros ((((Hw & Hmasks) & Hmin) & Htime) & Hne).
  destruct Hmasks as (_ & _ & _ & _ & _ & _ & Hcs8 & _).
  destruct Hcs8 as [Hlo Hhi].
  apply Z.leb_le in Hlo. apply Z.ltb_lt in Hhi. auto.
Qed.

Lemma termios_okb_inv (t : termios) :
  termios_okb P t = true ->
  0 <= c_iflag t < 2 ^ tcflag_bits /\ 0 <= c_oflag t < 2 ^ tcflag_bits /\
  0 <= c_cflag t < 2 ^ tcflag_bits /\ 0 <= c_lflag t < 2 ^ tcflag_bits /\
  length (c_cc t) = NCCS.
Proof.
  unfold termios_okb. cbn [forallb].
  rewrite !andb_true_iff, Nat.eqb_eq, !Z.leb_le, !Z.ltb_lt.
  intuition.
Qed.

(** Clearing: a bit of the result is set when it was set and is not in
    the mask. *)
Lemma clear_flags_bits (x m i : Z) :
  0 < tcflag_bits -> 0 <= x < 2 ^ tcflag_bits ->
  Z.testbit (clear_flags x m) i = Z.testbit x i && negb (Z.testbit m i).
Proof.
  intros Hw Hx. unfold clear_flags, to_tcflag.
  destruct (Z.neg_nonneg_cases i) as [Hneg|Hi].
  - now rewrite !Z.testbit_neg_r.
  - pose proof (Z.lt_le_incl _ _ Hw) as Hw0.
    rewrite Z.land_spec, Z.testbit_mod_pow2 by exact Hw0.
    rewrite Z.lnot_spec by exact Hi.
    destruct (Z.ltb_spec i tcflag_bits) as [Hlt|Hge]; [reflexivity|].
    assert (Hhigh : Z.testbit x i = false).
    { apply (proj1 (Z.bounded_iff_bits_nonneg' tcflag_bits x Hw0 (proj1 Hx))
               Hx i Hge). }
    now rewrite Hhigh.
Qed.

(** Setting: a bit of the result is set when it was set or is in the
    mask. *)
Lemma set_flags_bits (x m i : Z) :
  0 <= m < 2 ^ tcflag_bits ->
  Z.testbit (set_flags x m) i = Z.testbit x i || Z.testbit m i.
Proof.
  intros Hm. unfold set_flags, to_tcflag.
  now rewrite Z.lor_spec, Z.mod_small by exact Hm.
Qed.

(** C9.  The raw attributes are the baseline with exactly these changes:
    in [c_iflag] the bits of BRKINT, ICRNL, INPCK, ISTRIP and IXON are
    cleared, in [c_oflag] the bits of OPOST, in [c_lflag] the bits of ECHO,
    ICANON, IEXTEN and ISIG; in [c_cflag] the bits of CS8 are set;
    [c_cc[VMIN]] is 0 and [c_cc[VTIME]] is 1 (tenths of a second).  Every
    other bit, every other control character and every other member is
    that of the baseline. *)
Theorem C9_raw_attributes (t : termios) :
  platform_okb P = true ->
  termios_okb P t = true ->
  (forall i, Z.testbit (c_iflag (raw t)) i =
             Z.testbit (c_iflag t) i &&
             negb (Z.testbit BRKINT i || Z.testbit ICRNL i ||
                   Z.testbit INPCK i || Z.testbit ISTRIP i ||
                   Z.testbit IXON i)) /\
  (forall i, Z.testbit (c_oflag (raw t)) i =
             Z.testbit (c_oflag t) i && negb (Z.testbit OPOST i)) /\
  (forall i, Z.testbit (c_cflag (raw t)) i =
             Z.testbit (c_cflag t) i || Z.testbit CS8 i) /\
  (forall i, Z.testbit (c_lflag (raw t)) i =
             Z.testbit (c_lflag t) i &&
             negb (Z.testbit ECHO i || Z.testbit ICANON i ||
                   Z.testbit IEXTEN i || Z.testbit ISIG i)) /\
  c_cc (raw t) !! VMIN = Some 0 /\
  c_cc (raw t) !! VTIME = Some 1 /\
  (forall k : nat, k <> VMIN -> k <> VTIME -> c_cc (raw t) !! k = c_cc t !! k) /\
  length (c_cc (raw t)) = length (c_cc t) /\
  c_impl (raw t) = c_impl t.
Proof.
  intros HP Ht.
  destruct (platform_okb_inv HP) as (Hw & Hcs8 & Hmin & Htime & Hne).
  destruct (termios_okb_inv t Ht) as (Hi & Ho & Hc & Hl & Hlen).
  unfold raw; cbn [c_iflag c_oflag c_cflag c_lflag c_cc c_impl].
  repeat split.
  - intros i. rewrite clear_flags_bits by assumption.
    now rewrite !Z.lor_spec.
  - intros i. now rewrite clear_flags_bits by assumption.
  - intros i. now rewrite set_flags_bits by assumption.
  - intros i. rewrite clear_flags_bits by assumption.
    now rewrite !Z.lor_spec.
  - rewrite list_lookup_insert_ne by congruence.
    apply list_lookup_insert_eq. lia.
  - apply list_lookup_insert_eq. rewrite length_insert. lia.
  - intros k Hk1 Hk2. now rewrite !list_lookup_insert_ne by congruence.
  - now rewrite !length_insert.
Qed.

End RawAttributes.

Section SavedAttributes.
Context {P : Platform}.

(** ** The saved attributes are never written again *)

Lemma exit_process_orig (w : World) (n : Z) (s : state) :
  orig_termios (snd (exit_process w n s)) = orig_termios s.
Proof. unfold exit_process. now rewrite run_handlers_orig. Qed.

(** C10.  Once [enableRawMode] has stored the attributes of the terminal
    in [orig_termios], the variable keeps that value: after any number of
    turns of the loop, when [disableRawMode] has run, and when the process
    has gone through its exit handlers. *)
Theorem C10_orig_termios_frozen (w : World) (s s0 : state) :
  enableRawMode w s = (Ret tt, s0) ->
  orig_termios s0 = dev s /\
  (forall rs, orig_termios (snd (while_loop rs s0)) = dev s) /\
  (forall rs,
     orig_termios (snd (disableRawMode w (snd (while_loop rs s0)))) = dev s) /\
  (forall rs n,
     orig_termios (snd (exit_process w n (snd (while_loop rs s0)))) = dev s) /\
  (s = init w -> orig_termios (final (run w)) = dev0 w).
Proof.
  intros Hen.
  pose proof (enableRawMode_ret_inv w s s0 Hen) as Hget.
  destruct (enableRawMode_captures w s Hget) as (s0' & Hen' & Horig & _).
  rewrite Hen in Hen'. injection Hen' as <-.
  assert (Hloop : forall rs, orig_termios (snd (while_loop rs s0)) = dev s).
  { intros rs. destruct (while_loop_session rs s0) as (_ & Ho & _).
    congruence. }
  repeat split; auto.
  - intros rs. now rewrite disableRawMode_orig.
  - intros rs n. now rewrite exit_process_orig.
  - intros _.
    destruct (run_session w Hget) as (s1 & _ & Ho1 & _ & _ & _ & Hrun).
    pose proof (while_loop_session (stdin w) s1) as (_ & Ho & _).
    destruct (while_loop (stdin w) s1) as [[?|m|] s2]; cbn [snd] in Ho.
    + destruct Hrun as (_ & Hrun).
      destruct (tcset w 1%nat); destruct Hrun as (s3 & -> & _ & _ & _ & H3);
        exact H3.
    + destruct Hrun as (_ & Hrun).
      destruct (tcset w 1%nat); destruct Hrun as (s3 & -> & _ & _ & _ & H3);
        exact H3.
    + rewrite Hrun. cbn. congruence.
Qed.

End SavedAttributes.

(** * The claims on concrete runs *)

(** The examples of the specification, on both platforms. *)
Example echo_ctrl_c :
  stdout (snd (@loop_body linux_x86_64 (RData "003") (init world_quit)))
  = "3" ++ CRLF.
Proof. reflexivity. Qed.

Example echo_A :
  stdout (snd (@loop_body linux_aarch64 (RData "A") (init world_quit)))
  = "65 ('A')" ++ CRLF.
Proof. reflexivity. Qed.

Example echo_del :
  stdout (snd (@loop_body linux_x86_64 (RData "127") (init world_quit)))
  = "127" ++ CRLF.
Proof. reflexivity. Qed.

Example raw_of_cooked :
  @raw linux_x86_64 cooked =
  {| c_iflag := 16384; c_oflag := 4; c_cflag := 191; c_lflag := 2608;
     c_cc := [3; 28; 127; 21; 4; 1; 0; 0; 17; 19; 26; 0; 18; 15; 23; 22;
              0; 0; 0; 0; 0; 0; 0; 0; 0; 0; 0; 0; 0; 0; 0; 0];
     c_impl := [0; 15; 15] |}.
Proof. reflexivity. Qed.

(** C4, the claim as written fails: three read attempts deliver nothing,
    the loop is still running, and it has written three lines. *)
Lemma C4_counterexample :
  forallb (@no_data_yet linux_x86_64) (stdin world_idle) = true /\
  exists s,
    @run linux_x86_64 world_idle = Running s /\
    stdout s = "0" ++ CRLF ++ "0" ++ CRLF ++ "0" ++ CRLF /\
    stdout s <> "".
Proof.
  split; [reflexivity|].
  eexists. split; [vm_compute; reflexivity|]. split; [reflexivity|].
  discriminate.
Qed.

(** Two timeouts and one [EAGAIN]. *)
Lemma C4_idle_loop_witness :
  exists s',
    @while_loop linux_x86_64 (stdin world_idle) (init world_idle)
    = (Pending, s') /\
    stdout s' = stdout (init world_idle) ++ zero_lines 3 /\
    stderr s' = stderr (init world_idle).
Proof.
  apply (@C4_idle_loop linux_x86_64 (stdin world_idle) (init world_idle)).
  reflexivity.
Defined.

(** C5, the claim as written fails: [q] is read and echoed, [main] returns
    0, but the restoration in the exit handler fails, the handler calls
    [die], and the process exits with status 1. *)
Lemma C5_counterexample :
  stdin world_restore_fails = [RData "q"] /\
  exists s,
    @run linux_x86_64 world_restore_fails = Exited 1 s /\
    stdout s = "113 ('q')" ++ CRLF /\
    stderr s = ["tcsetattr: Input/output error"] /\
    exit_status (@run linux_x86_64 world_restore_fails) <> Some 0.
Proof.
  split; [reflexivity|].
  eexists. split; [vm_compute; reflexivity|]. repeat split. discriminate.
Qed.

(** [h], a timeout, then [q]; the [z] that follows is never read. *)
Lemma C5_quit_on_q_witness :
  exists s3,
    @run linux_x86_64 world_typing = Exited 0 s3 /\
    stdout s3 = "104 ('h')" ++ CRLF ++ "0" ++ CRLF ++ "113 ('q')" ++ CRLF.
Proof.
  destruct (@C5_quit_on_q linux_x86_64 world_typing
              [RData "h"; RZero] [RData "z"]
              (snd (@enableRawMode linux_x86_64 world_typing
                      (init world_typing)))
              (snd (@while_loop linux_x86_64 [RData "h"; RZero]
                      (snd (@enableRawMode linux_x86_64 world_typing
                              (init world_typing)))))
              eq_refl eq_refl eq_refl)
    as (_ & _ & _ & s3 & Hrun & Hout).
  exists s3. split; [exact Hrun | exact Hout].
Defined.

(** C6, the claim as written fails where [char] is signed: the byte 0xE9
    is echoed with the number -23, not 233. *)
Lemma C6_counterexample :
  stdout (snd (@loop_body linux_x86_64 (RData byte_E9) (init world_quit)))
  = "-23 ('" ++ String byte_E9 "')" ++ CRLF /\
  spec_line byte_E9 = "233 ('" ++ String byte_E9 "')" ++ CRLF /\
  stdout (snd (@loop_body linux_x86_64 (RData byte_E9) (init world_quit)))
  <> spec_line byte_E9.
Proof. repeat split. discriminate. Qed.

(** The byte [A], below 0x80. *)
Lemma C6_echo_line_witness :
  @loop_body linux_x86_64 (RData "A") (init world_quit) =
  (Ret false, set_stdout ("65 ('A')" ++ CRLF) (init world_quit)) /\
  @char_line linux_x86_64 "A" = spec_line "A".
Proof.
  destruct (@C6_echo_line linux_x86_64 "A"%char (init world_quit))
    as [Hbody Hline].
  split.
  - exact Hbody.
  - apply Hline. right. reflexivity.
Defined.

(** [a] is echoed, then the read fails with [EIO]. *)
Lemma C7_read_classification_witness :
  exists s3,
    @run linux_x86_64 world_read_fails = Exited 1 s3 /\
    stdout s3 = "97 ('a')" ++ CRLF /\
    (stderr s3 = ["read: Input/output error"] \/
     exists e, stderr s3 = ["read: Input/output error";
                            @perror_line linux_x86_64 "tcsetattr" e]).
Proof.
  exact (proj2 (@C7_read_classification linux_x86_64 world_read_fails
                  [RData "a"] [RData "q"] (RFail 5)
                  (snd (@enableRawMode linux_x86_64 world_read_fails
                          (init world_read_fails)))
                  (snd (@while_loop linux_x86_64 [RData "a"]
                          (snd (@enableRawMode linux_x86_64 world_read_fails
                                  (init world_read_fails)))))
                  eq_refl eq_refl eq_refl)).
Defined.

(** Input without [q] that ends in a fatal read error. *)
Lemma C8_only_fatal_read_stops_witness :
  (exists s',
     @while_loop linux_x86_64 [RData "a"; RFail 5; RData "z"]
       (init world_quit) = (Pending, s')) \/
  (exists (pre : list read_result) e rest s1 s',
     [RData "a"; RFail 5; RData "z"] = (pre ++ RFail e :: rest)%list /\
     @ReadOne linux_x86_64 (RFail e) = Fatal e /\
     @while_loop linux_x86_64 pre (init world_quit) = (Pending, s1) /\
     @while_loop linux_x86_64 [RData "a"; RFail 5; RData "z"]
       (init world_quit) = (Exit 1, s') /\
     stderr s' =
     (stderr (init world_quit) ++ [@perror_line linux_x86_64 "read" e])%list).
Proof.
  apply (@C8_only_fatal_read_stops linux_x86_64).
  intros Hq.
  repeat (apply elem_of_cons in Hq as [Hq|Hq]; [discriminate|]).
  now apply elem_of_nil in Hq.
Defined.

(** The raw attributes of a cooked Linux terminal. *)
Lemma C9_raw_attributes_witness :
  c_cc (@raw linux_x86_64 cooked) !! @VMIN linux_x86_64 = Some 0 /\
  c_cc (@raw linux_x86_64 cooked) !! @VTIME linux_x86_64 = Some 1 /\
  c_impl (@raw linux_x86_64 cooked) = c_impl cooked.
Proof.
  destruct (@C9_raw_attributes linux_x86_64 cooked eq_refl eq_refl)
    as (_ & _ & _ & _ & Hmin & Htime & _ & _ & Himpl).
  auto.
Defined.

(** A complete run, from the query to the exit handler. *)
Lemma C10_orig_termios_frozen_witness :
  orig_termios (final (@run linux_x86_64 world_typing)) = dev0 world_typing.
Proof.
  apply (@C10_orig_termios_frozen linux_x86_64 world_typing
           (init world_typing)
           (snd (@enableRawMode linux_x86_64 world_typing
                   (init world_typing)))
           eq_refl).
  reflexivity.
Defined.

(** * Further properties of the code *)

Section LoopProperties.
Context {P : Platform}.

(** ** The loop and the rest of the state *)

(** X1.  The loop of [main] never touches the terminal: whatever it reads and
    however it ends, the attributes of the terminal, [orig_termios], the
    [atexit] registrations and the number of [tcsetattr] calls are what
    they were when it started. *)
Theorem X_loop_leaves_terminal_alone (rs : list read_result) (s : state) :
  dev (snd (while_loop rs s)) = dev s /\
  orig_termios (snd (while_loop rs s)) = orig_termios s /\
  atexit_handlers (snd (while_loop rs s)) = atexit_handlers s /\
  tcset_calls (snd (while_loop rs s)) = tcset_calls s.
Proof.
  destruct (while_loop_session rs s) as (Hd & Ho & Hh & Hc).
  repeat split; assumption.
Qed.

(** ** The loop and its input *)

Lemma loop_body_fst (r : read_result) (s s' : state) :
  fst (loop_body r s) = fst (loop_body r s').
Proof.
  destruct r as [b| |e].
  - now rewrite !loop_body_data.
  - now rewrite !loop_body_zero.
  - rewrite !loop_body_fail. now destruct (e =? EAGAIN).
Qed.

Lemma loop_body_stdout (r : read_result) :
  exists out : string,
    forall s, stdout (snd (loop_body r s)) = stdout s ++ out.
Proof.
  destruct r as [b| |e].
  - exists (char_line b). intros s. now rewrite loop_body_data.
  - exists ("0" ++ CRLF). intros s. now rewrite loop_body_zero.
  - destruct (e =? EAGAIN) eqn:He.
    + exists ("0" ++ CRLF). intros s. now rewrite loop_body_fail, He.
    + exists "". intros s. rewrite loop_body_fail, He. cbn.
      now rewrite string_app_nil_r.
Qed.

(** X2.  What the loop does is fixed by what it reads.  The way it ends does
    not depend on the state it starts in, in particular not on a value
    left in [errno] by an earlier call; and what it writes is appended to
    [stdout], the same text whatever was written before. *)
Theorem X_loop_depends_on_input_only (rs : list read_result) :
  (forall s s', fst (while_loop rs s) = fst (while_loop rs s')) /\
  (exists out : string,
     forall s, stdout (snd (while_loop rs s)) = stdout s ++ out).
Proof.
  induction rs as [|r rs [IHres [out IHout]]].
  - split; [reflexivity|]. exists "". intros s. cbn.
    now rewrite string_app_nil_r.
  - destruct (loop_body_stdout r) as [out1 Hout1]. split.
    + intros s s'. rewrite !while_loop_cons.
      pose proof (loop_body_fst r s s') as Hf.
      destruct (loop_body r s) as [[[|]| |] s1];
        destruct (loop_body r s') as [[[|]| |] s1'];
        cbn [fst] in Hf; try discriminate; try reflexivity; auto.
      now injection Hf as ->.
    + assert (Hcase :
        (forall s, fst (loop_body r s) = Ret false) \/
        (forall s, fst (loop_body r s) <> Ret false)).
      { destruct r as [b| |e].
        - destruct (char_of_byte b =? 113) eqn:Hq.
          + right. intros s. rewrite loop_body_data, Hq. discriminate.
          + left. intros s. now rewrite loop_body_data, Hq.
        - left. intros s. now rewrite loop_body_zero.
        - destruct (e =? EAGAIN) eqn:He.
          + left. intros s. now rewrite loop_body_fail, He.
          + right. intros s. rewrite loop_body_fail, He. discriminate. }
      destruct Hcase as [Hgo|Hstop].
      * exists (out1 ++ out). intros s. rewrite while_loop_cons.
        specialize (Hgo s). specialize (Hout1 s).
        destruct (loop_body r s) as [[[|]| |] s1]; cbn [fst snd] in *;
          try discriminate.
        now rewrite IHout, Hout1, string_app_assoc.
      * exists out1. intros s. rewrite while_loop_cons.
        specialize (Hstop s). specialize (Hout1 s).
        destruct (loop_body r s) as [[[|]| |] s1]; cbn [fst snd] in *;
          try exact Hout1.
        now contradiction Hstop.
Qed.

(** X3.  Once the loop has ended, by [break] or by [die], input that arrives
    later changes nothing: it is never read. *)
Theorem X_loop_ignores_input_after_stop (rs more : list read_result)
    (s : state) :
  fst (while_loop rs s) <> Pending ->
  while_loop (rs ++ more) s = while_loop rs s.
Proof.
  revert s. induction rs as [|r rs IH]; intros s Hstop.
  - now contradiction Hstop.
  - cbn [app]. rewrite !while_loop_cons in *.
    destruct (loop_body r s) as [[[|]| |] s1]; auto.
Qed.

Lemma char_line_NUL : char_line byte_NUL = "0" ++ CRLF.
Proof.
  unfold char_line, char_of_byte, byte_NUL. cbn.
  now rewrite andb_false_r.
Qed.

Lemma loop_body_NUL (s : state) :
  loop_body (RData byte_NUL) s = loop_body RZero s.
Proof.
  rewrite loop_body_data, loop_body_zero, char_line_NUL.
  unfold char_of_byte, byte_NUL. cbn. now rewrite andb_false_r.
Qed.

(** X4.  The loop cannot tell a NUL byte from a read that delivered nothing:
    replacing one by the other anywhere in the input gives the same
    result, the same output and the same state. *)
Theorem X_NUL_byte_is_echoed_like_a_timeout (pre rest : list read_result)
    (s : state) :
  while_loop (pre ++ RData byte_NUL :: rest) s =
  while_loop (pre ++ RZero :: rest) s.
Proof.
  revert s. induction pre as [|r pre IH]; intros s; cbn [app].
  - now rewrite !while_loop_cons, loop_body_NUL.
  - rewrite !while_loop_cons.
    destruct (loop_body r s) as [[[|]| |] s1]; auto.
Qed.

(** The loop is still running after a list of reads exactly when none of
    them was [q] and none of them failed fatally. *)
Lemma while_loop_pending_inv (rs : list read_result) (s s' : state) :
  while_loop rs s = (Pending, s') ->
  forall r, r ∈ rs -> r <> RData "q" /\ forall e, ReadOne r <> Fatal e.
Proof.
  revert s. induction rs as [|r0 rs IH]; intros s Hw r Hin.
  - now apply elem_of_nil in Hin.
  - rewrite while_loop_cons in Hw.
    apply elem_of_cons in Hin as [->|Hin].
    + destruct r0 as [b| |e].
      * rewrite loop_body_data in Hw.
        destruct (char_of_byte b =? 113) eqn:Hq; [discriminate|].
        split; [|discriminate].
        intros Heq. injection Heq as ->.
        assert (Hq' : (char_of_byte "q" =? 113) = true)
          by now apply char_of_byte_q.
        congruence.
      * split; discriminate.
      * rewrite loop_body_fail in Hw.
        destruct (e =? EAGAIN) eqn:He; [|discriminate].
        split; [discriminate|]. intros e'. cbn. now rewrite He.
    + pose proof (loop_body_not_pending r0 s) as Hnp.
      destruct (loop_body r0 s) as [[[|]| |] s1]; try discriminate.
      * eapply IH; eauto.
      * now contradiction Hnp.
Qed.

End LoopProperties.

Section ProcessProperties.
Context {P : Platform}.

(** ** The process as a whole *)

(** After a successful query: the state in which the loop ends, and how
    the process goes on from there. *)
Lemma run_shape (w : World) :
  tcget w = OK ->
  exists s0 r s1,
    enableRawMode w (init w) = (Ret tt, s0) /\
    while_loop (stdin w) s0 = (r, s1) /\
    stderr s0 = [] /\
    dev s1 = match tcset w 0%nat with
             | OK => raw (dev0 w)
             | Fail _ => dev0 w
             end /\
    orig_termios s1 = dev0 w /\
    atexit_handlers s1 = [H_disableRawMode] /\
    tcset_calls s1 = 1%nat /\
    run w = match r with
            | Ret _ => let (n', s') := exit_process w 0 s1 in Exited n' s'
            | Exit n => let (n', s') := exit_process w n s1 in Exited n' s'
            | Pending => Running s1
            end.
Proof.
  intros Hget.
  destruct (enableRawMode_captures w (init w) Hget)
    as (s0 & Hen & Horig & Hh & Hcalls & Hout & Herr & Hdev).
  pose proof (while_loop_session (stdin w) s0) as (Hd & Ho & Hhs & Hc).
  destruct (while_loop (stdin w) s0) as [r s1] eqn:Hw. cbn [snd] in *.
  exists s0, r, s1.
  split; [exact Hen|]. split; [exact Hw|]. split; [exact Herr|].
  split; [rewrite Hd; exact Hdev|]. split; [rewrite Ho; exact Horig|].
  split; [rewrite Hhs; exact Hh|]. split; [rewrite Hc; exact Hcalls|].
  unfold run. rewrite main_unfold, Hen, Hw. now destruct r.
Qed.

(** X5.  The query fails.  Whatever is waiting on standard input, the process
    reads nothing and writes nothing to [stdout]; it makes no call of
    [tcsetattr], registers nothing, reports the failure once under the name
    [tcsgetattr], and exits with status 1 with the terminal as it was. *)
Theorem X_query_failure (w : World) (e : Z) :
  tcget w = Fail e ->
  exists s,
    run w = Exited 1 s /\
    dev s = dev0 w /\ tcset_calls s = 0%nat /\ atexit_handlers s = [] /\
    stdout s = "" /\ stderr s = [perror_line "tcsgetattr" e].
Proof.
  intros Hget. unfold run. rewrite main_unfold.
  rewrite (enableRawMode_query_fails w (init w) e Hget).
  rewrite exit_process_none by reflexivity.
  eexists. repeat split.
Qed.

(** X6.  The exit status is 0 or 1, and it tells whether anything was
    reported.  Status 0 comes with an empty [stderr].  Status 1 comes with
    the report of the failed query, or of a failed read, or of a failed
    restoration, or of a failed read followed by a failed restoration, and
    with nothing else. *)
Theorem X_status_and_diagnostics (w : World) (n : Z) (s : state) :
  run w = Exited n s ->
  (n = 0 /\ stderr s = []) \/
  (n = 1 /\
   exists e,
     stderr s = [perror_line "tcsgetattr" e] \/
     stderr s = [perror_line "read" e] \/
     stderr s = [perror_line "tcsetattr" e] \/
     exists e', stderr s = [perror_line "read" e; perror_line "tcsetattr" e']).
Proof.
  intros Hrun. destruct (tcget w) as [|e] eqn:Hget.
  - destruct (run_shape w Hget)
      as (s0 & r & s1 & _ & Hw & Herr0 & _ & _ & Hh & _ & Hr).
    pose proof (while_loop_stderr (stdin w) s0) as Hs. rewrite Hw in Hs.
    rewrite Hrun in Hr.
    destruct r as [[]|m|]; [| |discriminate].
    all: rewrite exit_process_restore in Hr by exact Hh.
    + destruct (tcset w (tcset_calls s1)) as [|e']; injection Hr as -> ->.
      * left. split; [reflexivity|]. cbn. congruence.
      * right. split; [reflexivity|]. exists e'. right. right. left.
        cbn. now rewrite Hs, Herr0.
    + destruct Hs as (-> & _ & e1 & _ & _ & _ & _ & Hs & _).
      rewrite Herr0 in Hs.
      destruct (tcset w (tcset_calls s1)) as [|e']; injection Hr as -> ->.
      * right. split; [reflexivity|]. exists e1. right. left. exact Hs.
      * right. split; [reflexivity|]. exists e1. right. right. right.
        exists e'. cbn. now rewrite Hs.
  - destruct (run_query_fails w e Hget) as (s' & Hr & _ & _ & Herr).
    rewrite Hr in Hrun. injection Hrun as <- <-.
    right. split; [reflexivity|]. exists e. left. exact Herr.
Qed.

(** X7.  Status 0 has one cause: the query succeeded, [q] was read, and the
    restoration at exit succeeded, so that the terminal has the attributes
    it was found with. *)
Theorem X_status_zero (w : World) (s : state) :
  run w = Exited 0 s ->
  tcget w = OK /\ tcset w 1%nat = OK /\ RData "q" ∈ stdin w /\
  dev s = dev0 w.
Proof.
  intros Hrun. destruct (tcget w) as [|e] eqn:Hget.
  - destruct (run_shape w Hget)
      as (s0 & r & s1 & _ & Hw & _ & _ & Ho & Hh & Hc & Hr).
    pose proof (while_loop_stderr (stdin w) s0) as Hs. rewrite Hw in Hs.
    rewrite Hrun in Hr.
    destruct r as [[]|m|]; [| |discriminate].
    all: rewrite exit_process_restore, Hc in Hr by exact Hh.
    + destruct (tcset w 1%nat); [|discriminate].
      injection Hr as ->.
      repeat split; [eapply while_loop_ret_q; eauto | exact Ho].
    + destruct Hs as (-> & _).
      destruct (tcset w 1%nat); discriminate.
  - destruct (run_query_fails w e Hget) as (s' & Hr & _).
    rewrite Hr in Hrun. discriminate.
Qed.

(** X8.  The restoration is attempted exactly once.  A process that got past
    the query has made two calls of [tcsetattr] when it has exited, the
    apply and the restoration, whichever way it ended; a process whose
    query failed has made none.  In both cases no registration is left. *)
Theorem X_restoration_attempted_once (w : World) (n : Z) (s : state) :
  run w = Exited n s ->
  atexit_handlers s = [] /\
  tcset_calls s = match tcget w with
                  | OK => 2%nat
                  | Fail _ => 0%nat
                  end.
Proof.
  intros Hrun. destruct (tcget w) as [|e] eqn:Hget.
  - destruct (run_shape w Hget)
      as (s0 & r & s1 & _ & _ & _ & _ & _ & Hh & Hc & Hr).
    rewrite Hrun in Hr.
    destruct r as [[]|m|]; [| |discriminate].
    all: rewrite exit_process_restore, Hc in Hr by exact Hh.
    all: destruct (tcset w 1%nat); injection Hr as -> ->.
    all: cbn; rewrite ?Hc; split; reflexivity.
  - unfold run in Hrun. rewrite main_unfold in Hrun.
    rewrite (enableRawMode_query_fails w (init w) e Hget) in Hrun.
    rewrite exit_process_none in Hrun by reflexivity.
    injection Hrun as _ <-. split; reflexivity.
Qed.

(** X9.  While the process is running, waiting in [read]: the query has
    succeeded, [orig_termios] holds the attributes found at entry,
    [disableRawMode] is registered, once, one call of [tcsetattr] has been
    made, nothing has been reported, and no read so far delivered [q] or
    failed fatally.  The terminal has the raw attributes, unless their
    apply failed. *)
Theorem X_running_invariant (w : World) (s : state) :
  run w = Running s ->
  tcget w = OK /\
  orig_termios s = dev0 w /\
  atexit_handlers s = [H_disableRawMode] /\
  tcset_calls s = 1%nat /\
  stderr s = [] /\
  dev s = match tcset w 0%nat with
          | OK => raw (dev0 w)
          | Fail _ => dev0 w
          end /\
  (forall r, r ∈ stdin w -> r <> RData "q" /\ forall e, ReadOne r <> Fatal e).
Proof.
  intros Hrun. destruct (tcget w) as [|e] eqn:Hget.
  - destruct (run_shape w Hget)
      as (s0 & r & s1 & _ & Hw & Herr0 & Hd & Ho & Hh & Hc & Hr).
    pose proof (while_loop_stderr (stdin w) s0) as Hs. rewrite Hw in Hs.
    rewrite Hrun in Hr.
    destruct r as [[]|m|].
    + destruct (exit_process w 0 s1); discriminate.
    + destruct (exit_process w m s1); discriminate.
    + injection Hr as ->. repeat split; auto; try congruence.
      all: eapply while_loop_pending_inv; eauto.
  - destruct (run_query_fails w e Hget) as (s' & Hr & _).
    rewrite Hr in Hrun. discriminate.
Qed.

End ProcessProperties.

Section RawProperties.
Context {P : Platform}.

(** ** The derivation of the raw attributes *)

Lemma clear_flags_idem (x m : Z) :
  clear_flags (clear_flags x m) m = clear_flags x m.
Proof.
  unfold clear_flags. now rewrite <- Z.land_assoc, Z.land_diag.
Qed.

Lemma set_flags_idem (x m : Z) : set_flags (set_flags x m) m = set_flags x m.
Proof.
  unfold set_flags. now rewrite <- Z.lor_assoc, Z.lor_diag.
Qed.

Lemma insert_pair_idem (l : list Z) (i j : nat) (a b : Z) :
  <[j := b]> (<[i := a]> (<[j := b]> (<[i := a]> l))) =
  <[j := b]> (<[i := a]> l).
Proof.
  destruct (decide (i = j)) as [->|Hne].
  - now rewrite !list_insert_insert_eq.
  - rewrite (list_insert_insert_ne _ i j a b) by exact Hne.
    now rewrite !list_insert_insert_eq.
Qed.

(** X10.  The derivation is idempotent: the raw attributes of raw attributes are
    the same attributes, so entering raw mode on a terminal that already
    is in raw mode asks for no change. *)
Theorem X_raw_idempotent (t : termios) : raw (raw t) = raw t.
Proof.
  unfold raw. cbn [c_iflag c_oflag c_cflag c_lflag c_cc c_impl].
  now rewrite !clear_flags_idem, set_flags_idem, insert_pair_idem.
Qed.

Lemma clear_flags_range (x m : Z) :
  0 < tcflag_bits -> 0 <= x < 2 ^ tcflag_bits ->
  0 <= clear_flags x m < 2 ^ tcflag_bits.
Proof.
  intros Hw Hx. pose proof (Z.lt_le_incl _ _ Hw) as Hw0.
  assert (Hnn : 0 <= clear_flags x m).
  { unfold clear_flags. apply Z.land_nonneg. left. exact (proj1 Hx). }
  apply (Z.bounded_iff_bits_nonneg' tcflag_bits _ Hw0 Hnn).
  intros l Hl. rewrite clear_flags_bits by assumption.
  now rewrite (proj1 (Z.bounded_iff_bits_nonneg' tcflag_bits x Hw0 (proj1 Hx))
                 Hx l Hl).
Qed.

Lemma set_flags_range (x m : Z) :
  0 < tcflag_bits -> 0 <= x < 2 ^ tcflag_bits -> 0 <= m < 2 ^ tcflag_bits ->
  0 <= set_flags x m < 2 ^ tcflag_bits.
Proof.
  intros Hw Hx Hm. pose proof (Z.lt_le_incl _ _ Hw) as Hw0.
  assert (Hnn : 0 <= set_flags x m).
  { unfold set_flags, to_tcflag. rewrite Z.mod_small by exact Hm.
    apply Z.lor_nonneg. split; [exact (proj1 Hx) | exact (proj1 Hm)]. }
  apply (Z.bounded_iff_bits_nonneg' tcflag_bits _ Hw0 Hnn).
  intros l Hl. rewrite set_flags_bits by assumption.
  rewrite (proj1 (Z.bounded_iff_bits_nonneg' tcflag_bits x Hw0 (proj1 Hx))
             Hx l Hl).
  now rewrite (proj1 (Z.bounded_iff_bits_nonneg' tcflag_bits m Hw0 (proj1 Hm))
                 Hm l Hl).
Qed.

(** X11.  The derivation keeps a [struct termios] well formed: the four flag
    words stay values of [tcflag_t] and [c_cc] keeps its size. *)
Theorem X_raw_well_formed (t : termios) :
  platform_okb P = true ->
  termios_okb P t = true ->
  termios_okb P (raw t) = true.
Proof.
  intros HP Ht.
  destruct (platform_okb_inv HP) as (Hw & Hcs8 & _).
  destruct (termios_okb_inv t Ht) as (Hi & Ho & Hc & Hl & Hlen).
  unfold termios_okb, raw. cbn [c_iflag c_oflag c_cflag c_lflag c_cc forallb].
  rewrite !length_insert, Hlen, Nat.eqb_refl.
  pose proof (clear_flags_range (c_iflag t)
                (Z.lor (Z.lor (Z.lor (Z.lor BRKINT ICRNL) INPCK) ISTRIP) IXON)
                Hw Hi) as [H1 H2].
  pose proof (clear_flags_range (c_oflag t) OPOST Hw Ho) as [H3 H4].
  pose proof (set_flags_range (c_cflag t) CS8 Hw Hc Hcs8) as [H5 H6].
  pose proof (clear_flags_range (c_lflag t)
                (Z.lor (Z.lor (Z.lor ECHO ICANON) IEXTEN) ISIG) Hw Hl)
    as [H7 H8].
  apply Z.leb_le in H1, H3, H5, H7. apply Z.ltb_lt in H2, H4, H6, H8.
  now rewrite H1, H2, H3, H4, H5, H6, H7, H8.
Qed.

(** A flag of the mask is off in the cleared word. *)
Lemma clear_flags_off (x m f : Z) :
  0 < tcflag_bits ->
  (forall i, Z.testbit f i = true -> Z.testbit m i = true) ->
  Z.land (clear_flags x m) f = 0.
Proof.
  intros Hw Hsub. pose proof (Z.lt_le_incl _ _ Hw) as Hw0.
  apply Z.bits_inj'. intros i Hi.
  unfold clear_flags, to_tcflag.
  rewrite !Z.land_spec, Z.testbit_mod_pow2, Z.lnot_spec, Z.bits_0
    by assumption.
  destruct (Z.testbit f i) eqn:Hf; [|now rewrite andb_false_r].
  rewrite (Hsub i Hf). cbn. now rewrite !andb_false_r.
Qed.

(** The mask is on in the set word. *)
Lemma set_flags_on (x m : Z) :
  0 <= m < 2 ^ tcflag_bits -> Z.land (set_flags x m) m = m.
Proof.
  intros Hm. apply Z.bits_inj'. intros i Hi.
  rewrite Z.land_spec, set_flags_bits by exact Hm.
  now destruct (Z.testbit x i), (Z.testbit m i).
Qed.

(** X12.  After [enableRawMode] has returned, its apply having succeeded, the
    terminal itself has every feature off that the function names: each of
    the eleven flags tests as 0 in the word of the terminal, the character
    size mask tests as CS8, and the two read parameters are 0 and 1. *)
Theorem X_terminal_is_raw (w : World) (s s1 : state) :
  platform_okb P = true ->
  termios_okb P (dev s) = true ->
  tcset w (tcset_calls s) = OK ->
  enableRawMode w s = (Ret tt, s1) ->
  Forall (fun f => Z.land (c_iflag (dev s1)) f = 0)
    [BRKINT; ICRNL; INPCK; ISTRIP; IXON] /\
  Z.land (c_oflag (dev s1)) OPOST = 0 /\
  Z.land (c_cflag (dev s1)) CS8 = CS8 /\
  Forall (fun f => Z.land (c_lflag (dev s1)) f = 0)
    [ECHO; ICANON; IEXTEN; ISIG] /\
  c_cc (dev s1) !! VMIN = Some 0 /\
  c_cc (dev s1) !! VTIME = Some 1.
Proof.
  intros HP Ht Hset Hen.
  destruct (platform_okb_inv HP) as (Hw & Hcs8 & Hmin & Htime & Hne).
  destruct (termios_okb_inv _ Ht) as (_ & _ & _ & _ & Hlen).
  pose proof (enableRawMode_ret_inv w s s1 Hen) as Hget.
  destruct (enableRawMode_captures w s Hget)
    as (s1' & Hen' & _ & _ & _ & _ & _ & Hdev).
  rewrite Hen in Hen'. injection Hen' as <-.
  rewrite Hset in Hdev. rewrite Hdev.
  unfold raw. cbn [c_iflag c_oflag c_cflag c_lflag c_cc].
  repeat split.
  - repeat constructor; apply clear_flags_off; try exact Hw;
      intros i Hf; rewrite !Z.lor_spec, Hf; cbn;
      now rewrite ?orb_true_r.
  - apply clear_flags_off; [exact Hw | auto].
  - apply set_flags_on. exact Hcs8.
  - repeat constructor; apply clear_flags_off; try exact Hw;
      intros i Hf; rewrite !Z.lor_spec, Hf; cbn;
      now rewrite ?orb_true_r.
  - rewrite list_lookup_insert_ne by congruence.
    apply list_lookup_insert_eq. lia.
  - apply list_lookup_insert_eq. rewrite length_insert. lia.
Qed.

(** ** Entering twice *)

(** X13.  [enableRawMode] does not guard against a second call.  The second
    call stores the attributes the terminal has then, and registers
    [disableRawMode] a second time: the attributes found before the first
    call are no longer kept anywhere.  When every [tcsetattr] succeeds,
    exit leaves the terminal with the raw attributes. *)
Theorem X_double_entry_loses_baseline (w : World) (s s1 s2 : state) (n : Z) :
  enableRawMode w s = (Ret tt, s1) ->
  enableRawMode w s1 = (Ret tt, s2) ->
  atexit_handlers s = [] ->
  (forall k, tcset w k = OK) ->
  orig_termios s1 = dev s /\
  orig_termios s2 = raw (dev s) /\
  atexit_handlers s2 = [H_disableRawMode; H_disableRawMode] /\
  dev (snd (exit_process w n s2)) = raw (dev s).
Proof.
  intros Hen1 Hen2 Hnil Hok.
  pose proof (enableRawMode_ret_inv w s s1 Hen1) as Hget.
  destruct (enableRawMode_captures w s Hget)
    as (s1' & Hen1' & Ho1 & Hh1 & _ & _ & _ & Hd1).
  rewrite Hen1 in Hen1'. injection Hen1' as <-.
  destruct (enableRawMode_captures w s1 Hget)
    as (s2' & Hen2' & Ho2 & Hh2 & _ & _ & _ & Hd2).
  rewrite Hen2 in Hen2'. injection Hen2' as <-.
  rewrite Hok in Hd1, Hd2.
  assert (Ho : orig_termios s2 = raw (dev s)) by congruence.
  assert (Hh : atexit_handlers s2 = [H_disableRawMode; H_disableRawMode])
    by congruence.
  repeat split; auto.
  unfold exit_process. rewrite Hh. cbn [run_handlers call].
  rewrite disableRawMode_ok by apply Hok.
  rewrite disableRawMode_ok by apply Hok.
  cbn. exact Ho.
Qed.

End RawProperties.

(** * The further properties on concrete runs *)

(** After [q] the loop has stopped; a [z] typed later is not read. *)
Lemma X_loop_ignores_input_after_stop_witness :
  @while_loop linux_x86_64 ([RData "h"; RData "q"] ++ [RData "z"])
    (init world_quit) =
  @while_loop linux_x86_64 [RData "h"; RData "q"] (init world_quit).
Proof.
  apply (@X_loop_ignores_input_after_stop linux_x86_64).
  discriminate.
Defined.

(** Standard input is not a terminal. *)
Lemma X_query_failure_witness :
  exists s,
    @run linux_x86_64 world_query_fails = Exited 1 s /\
    dev s = dev0 world_query_fails /\ tcset_calls s = 0%nat /\
    atexit_handlers s = [] /\
    stdout s = "" /\
    stderr s = ["tcsgetattr: Inappropriate ioctl for device"].
Proof.
  apply (@X_query_failure linux_x86_64 world_query_fails 25).
  reflexivity.
Defined.

(** The read and the restoration both fail: two diagnostics, status 1. *)
Lemma X_status_and_diagnostics_witness :
  (1 = 0 /\ stderr (final (@run linux_x86_64 world_hangup)) = []) \/
  (1 = 1 /\
   exists e,
     stderr (final (@run linux_x86_64 world_hangup))
     = [@perror_line linux_x86_64 "tcsgetattr" e] \/
     stderr (final (@run linux_x86_64 world_hangup))
     = [@perror_line linux_x86_64 "read" e] \/
     stderr (final (@run linux_x86_64 world_hangup))
     = [@perror_line linux_x86_64 "tcsetattr" e] \/
     exists e',
       stderr (final (@run linux_x86_64 world_hangup))
       = [@perror_line linux_x86_64 "read" e;
          @perror_line linux_x86_64 "tcsetattr" e']).
Proof.
  apply (@X_status_and_diagnostics linux_x86_64 world_hangup 1
           (final (@run linux_x86_64 world_hangup))).
  vm_compute. reflexivity.
Defined.

(** A run that ends with status 0. *)
Lemma X_status_zero_witness :
  tcget world_typing = OK /\ tcset world_typing 1%nat = OK /\
  RData "q" ∈ stdin world_typing /\
  dev (final (@run linux_x86_64 world_typing)) = dev0 world_typing.
Proof.
  apply (@X_status_zero linux_x86_64 world_typing
           (final (@run linux_x86_64 world_typing))).
  vm_compute. reflexivity.
Defined.

(** A run that ends through [die("read")]. *)
Lemma X_restoration_attempted_once_witness :
  atexit_handlers (final (@run linux_x86_64 world_read_fails)) = [] /\
  tcset_calls (final (@run linux_x86_64 world_read_fails)) = 2%nat.
Proof.
  apply (@X_restoration_attempted_once linux_x86_64 world_read_fails 1
           (final (@run linux_x86_64 world_read_fails))).
  vm_compute. reflexivity.
Defined.

(** A process that waits for input. *)
Lemma X_running_invariant_witness :
  orig_termios (final (@run linux_x86_64 world_idle)) = dev0 world_idle /\
  atexit_handlers (final (@run linux_x86_64 world_idle))
  = [H_disableRawMode] /\
  dev (final (@run linux_x86_64 world_idle))
  = @raw linux_x86_64 (dev0 world_idle).
Proof.
  destruct (@X_running_invariant linux_x86_64 world_idle
              (final (@run linux_x86_64 world_idle)))
    as (_ & Ho & Hh & _ & _ & Hd & _).
  - vm_compute. reflexivity.
  - split; [exact Ho|]. split; [exact Hh | exact Hd].
Defined.

(** The raw attributes of a cooked Linux terminal are well formed. *)
Lemma X_raw_well_formed_witness :
  termios_okb linux_x86_64 (@raw linux_x86_64 cooked) = true.
Proof.
  apply (@X_raw_well_formed linux_x86_64 cooked); reflexivity.
Defined.

(** A cooked Linux terminal after [enableRawMode]. *)
Lemma X_terminal_is_raw_witness :
  Z.land (c_lflag (dev (snd (@enableRawMode linux_x86_64 world_quit
                               (init world_quit)))))
    (@ECHO linux_x86_64) = 0 /\
  Z.land (c_lflag (dev (snd (@enableRawMode linux_x86_64 world_quit
                               (init world_quit)))))
    (@ICANON linux_x86_64) = 0.
Proof.
  destruct (@X_terminal_is_raw linux_x86_64 world_quit (init world_quit)
              (snd (@enableRawMode linux_x86_64 world_quit
                      (init world_quit)))
              eq_refl eq_refl eq_refl eq_refl)
    as (_ & _ & _ & Hl & _).
  inversion Hl as [|? ? Hecho Hl']. inversion Hl' as [|? ? Hicanon _].
  split; [exact Hecho | exact Hicanon].
Defined.

(** Two calls on a cooked Linux terminal: the terminal ends raw, not
    cooked. *)
Lemma X_double_entry_loses_baseline_witness :
  dev (snd (@exit_process linux_x86_64 world_quit 0
              (snd (@enableRawMode linux_x86_64 world_quit
                      (snd (@enableRawMode linux_x86_64 world_quit
                              (init world_quit)))))))
  = @raw linux_x86_64 cooked.
Proof.
  apply (@X_double_entry_loses_baseline linux_x86_64 world_quit
           (init world_quit)
           (snd (@enableRawMode linux_x86_64 world_quit (init world_quit)))
           (snd (@enableRawMode linux_x86_64 world_quit
                   (snd (@enableRawMode linux_x86_64 world_quit
                           (init world_quit)))))
           0).
  - reflexivity.
  - reflexivity.
  - reflexivity.
  - intros k. reflexivity.
Defined.
